(** * sqlalchemist: pool, session and row-mapping layer

    A shallow embedding of [abstracts/AbstractDAO.py], [factory/SqlSession.py]
    and [factory/DataSource.py].  Python objects are values of an inductive
    type, dictionaries are insertion-ordered association lists, exceptions
    are results of an error monad, and the wrapped database toolkit is an
    abstract state machine: the general theorems hold for every toolkit,
    the concrete runs use a small in-memory one. *)

From Stdlib Require Import String Ascii ZArith List Bool Lia Permutation.
Import ListNotations.
Local Open Scope string_scope.
Local Open Scope list_scope.
Local Open Scope Z_scope.

Set Implicit Arguments.
#[local] Set Warnings "-register-all".

(* ===================================================================== *)
(** * Python values *)
(* ===================================================================== *)

Module Py.

(** The objects that flow through the layer: [None], integers, strings,
    tuples, lists and dictionaries.  A dictionary keeps its items in
    insertion order. *)
Inductive value : Type :=
| VNone
| VInt (z : Z)
| VStr (s : string)
| VTuple (xs : list value)
| VList (xs : list value)
| VDict (items : list (value * value)).

(** [hash(v)] succeeds on [None], numbers, strings and tuples of hashable
    objects; lists and dictionaries are unhashable. *)
Fixpoint hashable (v : value) : bool :=
  match v with
  | VNone | VInt _ | VStr _ => true
  | VTuple xs => forallb hashable xs
  | VList _ | VDict _ => false
  end.

(** Equality of keys.  On the hashable fragment modelled here Python's [==]
    is structural. *)
Fixpoint value_eqb (a b : value) {struct a} : bool :=
  let fix seq_eqb (xs ys : list value) {struct xs} : bool :=
    match xs, ys with
    | [], [] => true
    | x :: xs', y :: ys' => value_eqb x y && seq_eqb xs' ys'
    | _, _ => false
    end in
  let fix items_eqb (xs ys : list (value * value)) {struct xs} : bool :=
    match xs, ys with
    | [], [] => true
    | (k, v) :: xs', (k', v') :: ys' =>
        value_eqb k k' && value_eqb v v' && items_eqb xs' ys'
    | _, _ => false
    end in
  match a, b with
  | VNone, VNone => true
  | VInt x, VInt y => Z.eqb x y
  | VStr x, VStr y => String.eqb x y
  | VTuple xs, VTuple ys => seq_eqb xs ys
  | VList xs, VList ys => seq_eqb xs ys
  | VDict xs, VDict ys => items_eqb xs ys
  | _, _ => false
  end.

(** ** Exceptions *)

(** [SQLAlchemyError] stands for the toolkit's whole error hierarchy; it
    carries [str(e)] and [e.code].  [OtherError] is any exception outside
    the classes named here. *)
Inductive exn : Type :=
| KeyError (key : value)
| TypeError (msg : string)
| AttributeError (msg : string)
| IndexError (msg : string)
| SQLAlchemyError (text : string) (code : option string)
| OtherError (name : string)
| DataSourceError (message : string)
                  (original_error : option obj) (error_code : option obj)
with obj : Type :=
| ObjValue (v : value)
| ObjExn (e : exn).

(** Modelled from the spec: the class [exceptions/DataSourceError.py] is
    not part of the sources; the specification gives its constructor as
    [DataSourceError(message, original_error?, error_code?)].  The
    constructor [DataSourceError] above stores the three positional
    arguments as they are passed. *)
Definition DataSourceError1 (message : string) : exn :=
  DataSourceError message None None.

Definition is_SQLAlchemyError (e : exn) : bool :=
  match e with SQLAlchemyError _ _ => true | _ => false end.

Definition is_DataSourceError (e : exn) : bool :=
  match e with DataSourceError _ _ _ => true | _ => false end.

(** [str(e)] as used by the f-strings of the session, which format
    errors of the toolkit only. *)
Definition exn_str (e : exn) : string :=
  match e with
  | KeyError _ => "KeyError"
  | TypeError m | AttributeError m | IndexError m => m
  | SQLAlchemyError t _ => t
  | OtherError n => n
  | DataSourceError m _ _ => m
  end.

(** [e.code] of a toolkit error, as a Python object. *)
Definition code_obj (code : option string) : obj :=
  match code with
  | Some c => ObjValue (VStr c)
  | None => ObjValue VNone
  end.

(** ** Results of pure code *)

Inductive res (A : Type) : Type :=
| Ok (a : A)
| Exc (e : exn).
Arguments Ok {A} a.
Arguments Exc {A} e.

Definition rbind {A B} (r : res A) (k : A -> res B) : res B :=
  match r with
  | Ok a => k a
  | Exc e => Exc e
  end.

(** ** Iteration and indexing *)

Fixpoint string_chars (s : string) : list value :=
  match s with
  | EmptyString => []
  | String c s' => VStr (String c EmptyString) :: string_chars s'
  end.

(** [iter(v)]: sequences yield their elements, a string its characters, a
    dictionary its keys; anything else is not iterable. *)
Definition py_iter (v : value) : res (list value) :=
  match v with
  | VTuple xs | VList xs => Ok xs
  | VStr s => Ok (string_chars s)
  | VDict items => Ok (List.map fst items)
  | VNone => Exc (TypeError "'NoneType' object is not iterable")
  | VInt _ => Exc (TypeError "'int' object is not iterable")
  end.

(** [zip(a, b)]: both arguments are turned into iterators when [zip] is
    called; the pairs stop with the shorter one. *)
Definition py_zip (a b : value) : res (list (value * value)) :=
  rbind (py_iter a) (fun xs =>
  rbind (py_iter b) (fun ys =>
  Ok (combine xs ys))).

(** [v[0]] on a sequence. *)
Definition py_index0 (v : value) : res value :=
  match v with
  | VTuple (x :: _) | VList (x :: _) => Ok x
  | VTuple [] => Exc (IndexError "tuple index out of range")
  | VList [] => Exc (IndexError "list index out of range")
  | VStr (String c _) => Ok (VStr (String c EmptyString))
  | VStr EmptyString => Exc (IndexError "string index out of range")
  | VDict items =>
      match find (fun kv => value_eqb (fst kv) (VInt 0)) items with
      | Some kv => Ok (snd kv)
      | None => Exc (KeyError (VInt 0))
      end
  | VNone => Exc (TypeError "'NoneType' object is not subscriptable")
  | VInt _ => Exc (TypeError "'int' object is not subscriptable")
  end.

(** ** Dictionaries *)

Section Dict.
Variable V : Type.

(** Items in insertion order; keys are pairwise different. *)
Definition dict : Type := list (value * V).

Fixpoint dict_lookup (d : dict) (k : value) : option V :=
  match d with
  | [] => None
  | (k', v) :: d' => if value_eqb k' k then Some v else dict_lookup d' k
  end.

(** Assignment to an existing key keeps the key's position; a new key
    goes to the end. *)
Fixpoint dict_store (d : dict) (k : value) (v : V) : dict :=
  match d with
  | [] => [(k, v)]
  | (k', v') :: d' =>
      if value_eqb k' k then (k', v) :: d' else (k', v') :: dict_store d' k v
  end.

(** What hashing a list or a dictionary raises. *)
Definition unhashable : exn := TypeError "unhashable type".

(** [d[k]] *)
Definition dict_getitem (d : dict) (k : value) : res V :=
  if hashable k then
    match dict_lookup d k with
    | Some v => Ok v
    | None => Exc (KeyError k)
    end
  else Exc unhashable.

(** [d.get(k)]: [None] for a missing key. *)
Definition dict_get (d : dict) (k : value) : res (option V) :=
  if hashable k then Ok (dict_lookup d k) else Exc unhashable.

(** [d[k] = v] *)
Definition dict_setitem (d : dict) (k : value) (v : V) : res dict :=
  if hashable k then Ok (dict_store d k v) else Exc unhashable.

(** Filling a dictionary from pairs, left to right: [dict(pairs)] and
    [d.update(pairs)]. *)
Fixpoint dict_fill (d : dict) (pairs : list (value * V)) : res dict :=
  match pairs with
  | [] => Ok d
  | (k, v) :: rest => rbind (dict_setitem d k v) (fun d' => dict_fill d' rest)
  end.

Definition dict_keys (d : dict) : list value := List.map fst d.
End Dict.

Definition pydict : Type := dict value.

End Py.
Import Py.

Declare Scope res_scope.
Notation "x <- c ;; k" := (rbind c (fun x => k))
  (at level 100, c at next level, right associativity) : res_scope.
Delimit Scope res_scope with res.

(* ===================================================================== *)
(** * abstracts/AbstractDAO.py *)
(* ===================================================================== *)

Module AbstractDAO.
Local Open Scope res_scope.

(** A [for] loop whose body may raise: the accumulator is the loop's
    mutable state. *)
Fixpoint for_each {A S : Type} (body : A -> S -> res S) (xs : list A) (s : S)
  : res S :=
  match xs with
  | [] => Ok s
  | x :: xs' => s' <- body x s ;; for_each body xs' s'
  end.

(** [AbstractDAO.map]:
<<
    arr = []
    for data in inp["data"]:
        arr.append(dict(zip(inp["columns"], data)))
    return arr
>> *)
Definition map (inp : pydict) : res (list pydict) :=
  data_seq <- dict_getitem inp (VStr "data") ;;
  rows <- py_iter data_seq ;;
  for_each (fun data arr =>
              columns <- dict_getitem inp (VStr "columns") ;;
              pairs <- py_zip columns data ;;
              row <- dict_fill [] pairs ;;
              Ok (arr ++ [row]))
           rows [].

(** One turn of the loop of [hash_map].  [values.append(row)] changes the
    list object that [res] already holds, so the bucket is updated in
    place. *)
Definition hash_step (key_column : string) (row : pydict)
  (res_ : dict (list pydict)) : res (dict (list pydict)) :=
  k <- dict_getitem row (VStr key_column) ;;
  values <- dict_get res_ k ;;
  match values with
  | None =>
      k' <- dict_getitem row (VStr key_column) ;;
      res1 <- dict_setitem res_ k' [] ;;
      Ok (dict_store res1 k' ([] ++ [row]))
  | Some vs => Ok (dict_store res_ k (vs ++ [row]))
  end.

(** [AbstractDAO.hash_map]:
<<
    arr: list = cls.map(inp)
    res: dict = {}
    for row in arr:
        values: list = res.get(row[key_column])
        if values is None:
            values = []
            res[row[key_column]] = values
        values.append(row)
    return res
>> *)
Definition hash_map (inp : pydict) (key_column : string)
  : res (dict (list pydict)) :=
  arr <- map inp ;;
  for_each (hash_step key_column) arr [].

End AbstractDAO.

(* ===================================================================== *)
(** * The wrapped database toolkit *)
(* ===================================================================== *)

(** Engine, pool, connection, ORM session and cursor result are objects of
    the toolkit; the layer only holds references to them. *)
Definition Engine : Type := nat.
Definition Pool : Type := nat.
Definition Connection : Type := nat.
Definition OrmSession : Type := nat.
Definition CursorResult : Type := nat.

(** What the layer asks of the toolkit.  [L] is the toolkit's own state
    (pool, connections, transactions, database contents); every call may
    change it and may raise. *)
Record Toolkit (L : Type) : Type := {
  create_engine : list value -> pydict -> L -> res Engine * L;
  engine_pool : Engine -> L -> Pool;
  engine_connect : Engine -> L -> res Connection * L;
  engine_dispose : Engine -> L -> res unit * L;
  conn_execution_options : Connection -> bool -> L -> res Connection * L;
  conn_execute : Connection -> string -> pydict -> L -> res CursorResult * L;
  conn_close : Connection -> L -> res unit * L;
  conn_closed : Connection -> L -> bool;
  conn_invalidated : Connection -> L -> bool;
  cursor_description : CursorResult -> L -> res value;
  result_fetchall : CursorResult -> L -> res value * L;
  result_fetchone : CursorResult -> L -> res value * L;
  orm_session : Connection -> L -> res OrmSession * L;
  session_execute : OrmSession -> string -> value -> L -> res unit * L;
  session_commit : OrmSession -> L -> res unit * L;
  session_rollback : OrmSession -> L -> res unit * L;
  session_close : OrmSession -> L -> res unit * L
}.

(** Calls into the toolkit and lines written by [print], in the order in
    which they happen.  [PrintException e] is the call [print(e)] on an
    exception object. *)
Inductive Event : Type :=
| CallCreateEngine (args : list value) (kwargs : pydict)
| CallConnect (e : Engine)
| CallDispose (e : Engine)
| CallExecutionOptions (c : Connection) (autocommit : bool)
| CallConnExecute (c : Connection) (sql : string) (params : pydict)
| CallConnClose (c : Connection)
| CallFetchall (r : CursorResult)
| CallFetchone (r : CursorResult)
| CallOrmSession (c : Connection)
| CallSessionExecute (s : OrmSession) (sql : string) (params : value)
| CallSessionCommit (s : OrmSession)
| CallSessionRollback (s : OrmSession)
| CallSessionClose (s : OrmSession)
| Print (line : string)
| PrintException (e : exn).

Record World (L : Type) : Type := {
  lib : L;
  log : list Event
}.

(** Standard output as [print(e)] uses it: the exception is turned into
    text and the text is written.  Either step may raise (a [__str__] that
    fails, text that the stream's encoding cannot write, a closed stream),
    so the answer is left to the environment, whose state [L] it shares
    with the toolkit. *)
Record Console (L : Type) : Type := {
  print_object : exn -> L -> res unit * L
}.

(** ** Effectful code *)

Section Effects.
Variable L : Type.

Definition M (A : Type) : Type := World L -> res A * World L.

Definition ret {A} (a : A) : M A := fun w => (Ok a, w).

Definition raise {A} (e : exn) : M A := fun w => (Exc e, w).

Definition bind {A B} (m : M A) (k : A -> M B) : M B :=
  fun w =>
    match m w with
    | (Ok a, w') => k a w'
    | (Exc e, w') => (Exc e, w')
    end.

Definition lift {A} (r : res A) : M A := fun w => (r, w).

(** A call into the toolkit: logged, then answered by the toolkit. *)
Definition call {A} (ev : Event) (f : L -> res A * L) : M A :=
  fun w =>
    let (r, l') := f (lib w) in
    (r, {| lib := l'; log := log w ++ [ev] |}).

Definition print (line : string) : M unit :=
  fun w => (Ok tt, {| lib := lib w; log := log w ++ [Print line] |}).

(** [try: body except (Exception, BaseException) as e: handler(e)] for
    code that neither returns nor assigns inside the statement. *)
Definition try_except {A} (body : M A) (handler : exn -> M A) : M A :=
  fun w =>
    match body w with
    | (Ok a, w') => (Ok a, w')
    | (Exc e, w') => handler e w'
    end.

(** ** Statements

    How a statement ends: it runs to its end, it executes [return], or
    an exception leaves it. *)
Inductive completion (R : Type) : Type :=
| Normal
| Return (r : R)
| Raise (e : exn).
Arguments Normal {R}.
Arguments Return {R} r.
Arguments Raise {R} e.

(** A statement of a function with local variables [S] and return type
    [R]. *)
Definition Stmt (S R : Type) : Type :=
  S -> World L -> (completion R * S) * World L.

Definition seq {S R} (a b : Stmt S R) : Stmt S R :=
  fun s w =>
    match a s w with
    | (Normal, s', w') => b s' w'
    | other => other
    end.

(** An expression statement. *)
Definition expr_ {S R A} (m : M A) : Stmt S R :=
  fun s w =>
    match m w with
    | (Ok _, w') => (Normal, s, w')
    | (Exc e, w') => (Raise e, s, w')
    end.

Definition assign {S R} (f : S -> S) : Stmt S R :=
  fun s w => (Normal, f s, w).

(** [return expr], the expression being evaluated in [M]. *)
Definition return_ {S R} (m : S -> M R) : Stmt S R :=
  fun s w =>
    match m s w with
    | (Ok r, w') => (Return r, s, w')
    | (Exc e, w') => (Raise e, s, w')
    end.

Definition raise_ {S R} (e : exn) : Stmt S R :=
  fun s w => (Raise e, s, w).

Definition pass {S R} : Stmt S R :=
  fun s w => (Normal, s, w).

(** [try: body except C1 as e: h1 ... finally: final].  The first clause
    whose class matches handles the exception; what a handler raises is
    not handled again.  The [finally] suite always runs, and if it ends
    by [return] or by an exception of its own, that outcome replaces the
    pending one. *)
Definition try_ {S R} (body : Stmt S R)
  (handlers : list ((exn -> bool) * (exn -> Stmt S R)))
  (final : Stmt S R) : Stmt S R :=
  fun s w =>
    let '(c1, s1, w1) := body s w in
    let '(c2, s2, w2) :=
      match c1 with
      | Raise e =>
          match find (fun h => fst h e) handlers with
          | Some h => snd h e s1 w1
          | None => (c1, s1, w1)
          end
      | _ => (c1, s1, w1)
      end in
    let '(c3, s3, w3) := final s2 w2 in
    match c3 with
    | Normal => (c2, s3, w3)
    | _ => (c3, s3, w3)
    end.

(** Running a function body: falling off the end returns [None]. *)
Definition run_body {S R} (body : Stmt S R) (locals : S) : M (option R) :=
  fun w =>
    match body locals w with
    | (Normal, _, w') => (Ok None, w')
    | (Return r, _, w') => (Ok (Some r), w')
    | (Raise e, _, w') => (Exc e, w')
    end.
End Effects.

Arguments Normal {R}.
Arguments Return {R} r.
Arguments Raise {R} e.
Arguments pass {L S R}.

Declare Scope eff_scope.
Delimit Scope eff_scope with eff.
Notation "x <- c ;; k" := (bind c (fun x => k))
  (at level 100, c at next level, right associativity) : eff_scope.
Notation "c ;;; k" := (bind c (fun _ => k))
  (at level 100, k at level 200, right associativity) : eff_scope.

(** ** Objects of the layer *)

(** [DataSource]: the class attributes [_engine] and [_pool] are [None]
    until [init] binds them on the instance. *)
Record DataSource_obj : Type := {
  _engine : option Engine;
  _pool : option Pool
}.

(** [SqlSession]: [_data_source], [_connection] and [_session] are [None]
    until [init] binds them. *)
Record SqlSession_obj : Type := {
  _data_source : option DataSource_obj;
  _connection : option Connection;
  _session : option OrmSession
}.

(** What a decorated method may receive as a positional argument. *)
Inductive pyobject : Type :=
| PDataSource (d : DataSource_obj)
| PSqlSession (s : SqlSession_obj)
| PValue (v : value).

(** [obj.name] where [obj] may be [None]. *)
Definition attr {L A} (o : option A) (name : string) : M L A :=
  match o with
  | Some a => ret a
  | None =>
      raise (AttributeError ("'NoneType' object has no attribute '" ++ name ++ "'"))
  end.

(** [[f(x) for x in xs]] for an [f] that may raise. *)
Fixpoint comprehension {A B} (f : A -> res B) (xs : list A) : res (list B) :=
  match xs with
  | [] => Ok []
  | x :: xs' => rbind (f x) (fun y => rbind (comprehension f xs') (fun ys => Ok (y :: ys)))
  end.

(* ===================================================================== *)
(** * factory/SqlSession.py *)
(* ===================================================================== *)

Module SqlSession.
Local Open Scope eff_scope.

Section WithToolkit.
Context {L : Type} (tk : Toolkit L).
Context (con : Console L).

(** [SqlSession()] *)
Definition new : SqlSession_obj :=
  {| _data_source := None; _connection := None; _session := None |}.

(** [is_available]:
    [self._connection is not None and not self._connection.closed
     and not self._connection.invalidated] *)
Definition is_available (self : SqlSession_obj) (w : World L) : bool :=
  match _connection self with
  | None => false
  | Some c => negb (conn_closed tk c (lib w)) && negb (conn_invalidated tk c (lib w))
  end.

Definition not_available_message : string :=
  "Current connection is not in available state.".

Definition check_availability (self : SqlSession_obj) : M L unit :=
  fun w =>
    if negb (is_available self w)
    then raise (DataSourceError1 not_available_message) w
    else ret tt w.

(** The decorator [check_needed]; [func] receives [self] and the
    remaining positional arguments. *)
Definition check_needed {A} (func : SqlSession_obj -> list pyobject -> M L A)
  (args : list pyobject) : M L A :=
  match args with
  | [] =>
      raise (TypeError "this decorator should be applied to a instance method of SqlSession class.")
  | PSqlSession self :: rest =>
      check_availability self ;;; func self rest
  | _ :: _ =>
      raise (TypeError "this decorator should be applied to a instance method of SqlSession class.")
  end.

Definition __enter__ (self : SqlSession_obj) : M L SqlSession_obj := ret self.

(** [init]: binds the data source and the connection and opens the ORM
    session on the connection. *)
Definition init (self : SqlSession_obj) (data_source : DataSource_obj)
  (connection : Connection) : M L SqlSession_obj :=
  let self1 := {| _data_source := Some data_source;
                  _connection := _connection self;
                  _session := _session self |} in
  let self2 := {| _data_source := _data_source self1;
                  _connection := Some connection;
                  _session := _session self1 |} in
  s <- call (CallOrmSession connection) (orm_session tk connection) ;;
  ret {| _data_source := _data_source self2;
         _connection := _connection self2;
         _session := Some s |}.

Definition commit (self : SqlSession_obj) : M L unit :=
  s <- attr (_session self) "commit" ;;
  call (CallSessionCommit s) (session_commit tk s).

Definition rollback (self : SqlSession_obj) : M L unit :=
  s <- attr (_session self) "rollback" ;;
  call (CallSessionRollback s) (session_rollback tk s).

(** [close]:
<<
  try:
      self._session.close()
      self._connection.close()
  except (Exception, BaseException) as e:
      raise e
>> *)
Definition close (self : SqlSession_obj) : M L unit :=
  try_except
    (s <- attr (_session self) "close" ;;
     call (CallSessionClose s) (session_close tk s) ;;;
     c <- attr (_connection self) "close" ;;
     call (CallConnClose c) (conn_close tk c))
    (fun e => raise e).

(** [print(e)] in a handler: logged, then answered by the console.  What
    it raises leaves the handler. *)
Definition print_exception (e : exn) : M L unit :=
  call (PrintException e) (print_object con e).

(** [__exit__]; [self.close()] stands after the [try] statement, so it is
    reached only when that statement ends normally.
<<
  try:
      self.commit()
  except (Exception, BaseException) as e:
      print(e)
  self.close()
>> *)
Definition __exit__ (self : SqlSession_obj) (exc_type exc_val exc_tb : value)
  : M L unit :=
  try_except (commit self) (fun e => print_exception e) ;;;
  close self.

Definition __del__ (self : SqlSession_obj) : M L unit := close self.

(** The two [except] clauses shared by [select] and [select_one]. *)
Definition select_handlers {S R}
  : list ((exn -> bool) * (exn -> Stmt L S R)) :=
  [ (is_SQLAlchemyError,
     fun e =>
       match e with
       | SQLAlchemyError _ error_code =>
           raise_ (DataSourceError ("database select Error: " ++ exn_str e)
                     (Some (ObjExn e)) (Some (code_obj error_code)))
       | _ => raise_ e
       end);
    (fun _ => true, fun e => raise_ e) ].

(** The column names of a result:
    [[desc[0] for desc in result.cursor.description]] *)
Definition column_names_of (result : CursorResult) : M L (list value) :=
  description <- (fun w => (cursor_description tk result (lib w), w)) ;;
  descs <- lift (py_iter description) ;;
  lift (comprehension py_index0 descs).

(** [select]:
<<
  try:
      result = self._connection.execute(text(sql), params)
      column_names = [desc[0] for desc in result.cursor.description]
      data_array = result.fetchall()
      return {'column_names': column_names, 'data': data_array}
  except SQLAlchemyError as e: ...
      raise DataSourceError(f"database select Error: {e}", e, error_code)
  except (Exception, BaseException) as e:
      raise e
  finally:
      pass
>> *)
Definition select (self : SqlSession_obj) (sql : string) (params : pydict)
  : M L (option pydict) :=
  run_body
    (try_
       (return_ (fun _ : unit =>
          c <- attr (_connection self) "execute" ;;
          result <- call (CallConnExecute c sql params) (conn_execute tk c sql params) ;;
          column_names <- column_names_of result ;;
          data_array <- call (CallFetchall result) (result_fetchall tk result) ;;
          ret [(VStr "column_names", VList column_names);
               (VStr "data", data_array)]))
       select_handlers
       pass)
    tt.

(** [select_one]: as [select], with [result.fetchone()]. *)
Definition select_one (self : SqlSession_obj) (sql : string) (params : pydict)
  : M L (option pydict) :=
  run_body
    (try_
       (return_ (fun _ : unit =>
          c <- attr (_connection self) "execute" ;;
          result <- call (CallConnExecute c sql params) (conn_execute tk c sql params) ;;
          column_names <- column_names_of result ;;
          data_array <- call (CallFetchone result) (result_fetchone tk result) ;;
          ret [(VStr "column_names", VList column_names);
               (VStr "data", data_array)]))
       select_handlers
       pass)
    tt.

(** The [except] clauses of [insert] and [execute]; the local variable
    [result] is the statement's state.  The error code is passed as the
    second positional argument.  (The inner [match] only reads [e.code];
    its last branch is never reached behind [is_SQLAlchemyError].) *)
Definition write_handlers {R}
  : list ((exn -> bool) * (exn -> Stmt L bool R)) :=
  [ (is_SQLAlchemyError,
     fun e =>
       seq (assign (fun _ => false))
         match e with
         | SQLAlchemyError _ error_code =>
             raise_ (DataSourceError ("database select Error: " ++ exn_str e)
                       (Some (code_obj error_code)) None)
         | _ => raise_ e
         end);
    (fun _ => true, fun e => seq (assign (fun _ => false)) (raise_ e)) ].

(** The statement shared by [insert] and [execute]:
<<
  result = True
  try:
      self._session.execute(text(sql_template), data)
      self.commit()
  except SQLAlchemyError as e:
      result = False ...
      raise DataSourceError(f"database select Error: {e}", error_code)
  except (Exception, BaseException) as e:
      result = False
      raise e
  finally:
      return result
>> *)
Definition write (self : SqlSession_obj) (sql_template : string) (data : value)
  : M L (option bool) :=
  run_body
    (try_
       (seq
          (expr_ (s <- attr (_session self) "execute" ;;
                  call (CallSessionExecute s sql_template data)
                       (session_execute tk s sql_template data)))
          (expr_ (commit self)))
       write_handlers
       (return_ (fun result : bool => ret result)))
    true.

Definition insert (self : SqlSession_obj) (sql_template : string)
  (data_list : value) : M L (option bool) :=
  write self sql_template data_list.

(** [execute] passes its keyword arguments as one dictionary. *)
Definition execute (self : SqlSession_obj) (sql_template : string)
  (params : pydict) : M L (option bool) :=
  write self sql_template (VDict params).

Definition get_session (self : SqlSession_obj) : option OrmSession :=
  _session self.

Definition get_connection (self : SqlSession_obj) : option Connection :=
  _connection self.

End WithToolkit.
End SqlSession.

(* ===================================================================== *)
(** * factory/DataSource.py *)
(* ===================================================================== *)

Module DataSource.
Local Open Scope eff_scope.

Section WithToolkit.
Context {L : Type} (tk : Toolkit L).

(** [DataSource()] *)
Definition new : DataSource_obj := {| _engine := None; _pool := None |}.

(** [is_initialized]: [self._engine is not None] *)
Definition is_initialized (self : DataSource_obj) : bool :=
  match _engine self with
  | Some _ => true
  | None => false
  end.

Definition not_initialized_message : string :=
  "database connection pool has not been initialized properly. Maybe something went wrong..".

Definition check_initialization (self : DataSource_obj) : M L unit :=
  if negb (is_initialized self)
  then raise (DataSourceError1 not_initialized_message)
  else ret tt.

(** The decorator [requires_init]; [func] receives [self] and the
    remaining positional arguments. *)
Definition requires_init {A} (func : DataSource_obj -> list pyobject -> M L A)
  (args : list pyobject) : M L A :=
  match args with
  | [] =>
      raise (TypeError "this decorator should be applied to a instance method of DataSource class.")
  | PDataSource self :: rest =>
      check_initialization self ;;; func self rest
  | _ :: _ =>
      raise (TypeError "this decorator should be applied to a instance method of DataSource class.")
  end.

(** The connection options that [init] writes into the keyword
    arguments: [{'connect_args': {'connect_timeout': 10}}]. *)
Definition injected : pydict :=
  [(VStr "connect_args", VDict [(VStr "connect_timeout", VInt 10)])].

(** [init]:
<<
  kwargs.update({'connect_args': {'connect_timeout': 10}})
  self._engine = create_engine( *args, **kwargs )
  self._pool = self._engine.pool
>> *)
Definition init (self : DataSource_obj) (args : list value) (kwargs : pydict)
  : M L DataSource_obj :=
  kwargs1 <- lift (dict_fill kwargs injected) ;;
  engine <- call (CallCreateEngine args kwargs1) (create_engine tk args kwargs1) ;;
  let self1 := {| _engine := Some engine; _pool := _pool self |} in
  e <- attr (_engine self1) "pool" ;;
  pool <- (fun w => (Ok (engine_pool tk e (lib w)), w)) ;;
  ret {| _engine := _engine self1; _pool := Some pool |}.

(** The body of [get_session]:
<<
  connection = self._engine.connect().execution_options(autocommit=False)
  session = SqlSession()
  session.init(self, connection)
  return session
>> *)
Definition get_session_body (self : DataSource_obj) (rest : list pyobject)
  : M L SqlSession_obj :=
  e <- attr (_engine self) "connect" ;;
  c0 <- call (CallConnect e) (engine_connect tk e) ;;
  connection <- call (CallExecutionOptions c0 false)
                     (conn_execution_options tk c0 false) ;;
  let session := SqlSession.new in
  SqlSession.init tk session self connection.

(** The body of [release_session]: [del session] unbinds the local name
    and cannot fail.
<<
  try:
      del session
  except (Exception, BaseException) as e:
      print(e)
>> *)
Definition release_session_body (self : DataSource_obj) (rest : list pyobject)
  : M L unit :=
  try_except (ret tt) (fun e => print (exn_str e)).

(** The body of [close]: [self._engine.dispose()] *)
Definition close_body (self : DataSource_obj) (rest : list pyobject)
  : M L unit :=
  e <- attr (_engine self) "dispose" ;;
  call (CallDispose e) (engine_dispose tk e).

Definition get_session (self : DataSource_obj) : M L SqlSession_obj :=
  requires_init get_session_body [PDataSource self].

Definition release_session (self : DataSource_obj) (session : SqlSession_obj)
  : M L unit :=
  requires_init release_session_body [PDataSource self; PSqlSession session].

Definition close (self : DataSource_obj) : M L unit :=
  requires_init close_body [PDataSource self].

Definition __enter__ (self : DataSource_obj) : M L DataSource_obj := ret self.

(** [__exit__]:
<<
  try:
      self.close()
      print(f'exit {self.__class__.__name__}')
  except (Exception, BaseException) as e:
      raise e
>> *)
Definition __exit__ (self : DataSource_obj) (exc_type exc_val exc_tb : value)
  : M L unit :=
  try_except (close self ;;; print "exit DataSource") (fun e => raise e).

Definition __del__ (self : DataSource_obj) : M L unit :=
  try_except (close self ;;; print "del DataSource") (fun e => raise e).

End WithToolkit.
End DataSource.

(* ===================================================================== *)
(** * A small in-memory toolkit *)
(* ===================================================================== *)

(** One concrete toolkit, used wherever a statement is evaluated on a
    concrete run.  Its database has the single table [t(id, name)] with the
    rows [(1, "a")] and [(2, "b")]; statements on anything else fail with
    an engine error, and so does a statement on a closed connection. *)
Module Mem.

Record state : Type := {
  next_id : nat;
  closed_connections : list Connection;
  disposals : nat
}.

Definition start : state :=
  {| next_id := 0; closed_connections := []; disposals := 0 |}.

Definition fresh (l : state) : res nat * state :=
  (Ok (next_id l),
   {| next_id := S (next_id l);
      closed_connections := closed_connections l;
      disposals := disposals l |}).

Definition is_closed (c : Connection) (l : state) : bool :=
  existsb (Nat.eqb c) (closed_connections l).

Definition select_t : string := "SELECT id, name FROM t".
Definition insert_t : string := "INSERT INTO t (id, name) VALUES (:id, :name)".
Definition delete_u : string := "DELETE FROM u".

Definition closed_error : exn :=
  SQLAlchemyError "This Connection is closed" None.
Definition no_such_table : exn :=
  SQLAlchemyError "(OperationalError) no such table" (Some "e3q8").

(** A DB-API column descriptor: the name and six further entries. *)
Definition descriptor (name : string) : value :=
  VTuple [VStr name; VNone; VNone; VNone; VNone; VNone; VNone].

Definition rows_of_t : list value :=
  [VTuple [VInt 1; VStr "a"]; VTuple [VInt 2; VStr "b"]].

Definition toolkit : Toolkit state := {|
  create_engine := fun _ _ l => fresh l;
  engine_pool := fun e _ => e;
  engine_connect := fun _ l => fresh l;
  engine_dispose := fun _ l =>
    (Ok tt, {| next_id := next_id l;
               closed_connections := closed_connections l;
               disposals := S (disposals l) |});
  conn_execution_options := fun c _ l => (Ok c, l);
  conn_execute := fun c sql _ l =>
    if is_closed c l then (Exc closed_error, l)
    else if String.eqb sql select_t then (Ok 0%nat, l)
    else (Exc no_such_table, l);
  conn_close := fun c l =>
    (Ok tt, {| next_id := next_id l;
               closed_connections := c :: closed_connections l;
               disposals := disposals l |});
  conn_closed := is_closed;
  conn_invalidated := fun _ _ => false;
  cursor_description := fun _ _ => Ok (VList [descriptor "id"; descriptor "name"]);
  result_fetchall := fun _ l => (Ok (VList rows_of_t), l);
  result_fetchone := fun _ l => (Ok (VTuple [VInt 1; VStr "a"]), l);
  orm_session := fun c l => (Ok c, l);
  session_execute := fun s sql _ l =>
    if is_closed s l then (Exc closed_error, l)
    else if String.eqb sql insert_t then (Ok tt, l)
    else (Exc no_such_table, l);
  session_commit := fun _ l => (Ok tt, l);
  session_rollback := fun _ l => (Ok tt, l);
  session_close := fun _ l => (Ok tt, l)
|}.

Definition world0 : World state := {| lib := start; log := [] |}.

(** The world after [f] has run. *)
Definition after {A} (f : M state A) (w : World state) : World state :=
  snd (f w).

(** The value [f] returns, when it returns one. *)
Definition value_of {A} (f : M state A) (w : World state) : option A :=
  match fst (f w) with
  | Ok a => Some a
  | Exc _ => None
  end.

End Mem.

(* ===================================================================== *)
(** * Vocabulary of the statements *)
(* ===================================================================== *)

(** [inp] is a query result with the column names [names] and the rows
    [cells]: its ["columns"] entry iterates to the names, its ["data"] entry
    to rows, and every row iterates to as many values as there are
    columns. *)
Definition query_result (inp : pydict) (names : list string)
  (cells : list (list value)) : Prop :=
  exists columns data rows,
    dict_lookup inp (VStr "columns") = Some columns /\
    py_iter columns = Ok (List.map VStr names) /\
    dict_lookup inp (VStr "data") = Some data /\
    py_iter data = Ok rows /\
    Forall2 (fun r vs => py_iter r = Ok vs /\ length vs = length names) rows cells.

(** [out] has one mapping per row, in row order; the i-th mapping has
    exactly the column names as keys, and the name at position [j] is bound
    to the value at position [j] of the i-th row. *)
Definition aligned (out : list pydict) (names : list string)
  (cells : list (list value)) : Prop :=
  length out = length cells /\
  forall i vs, nth_error cells i = Some vs ->
    exists m, nth_error out i = Some m /\
      dict_keys m = List.map VStr names /\
      forall j name, nth_error names j = Some name ->
        dict_lookup m (VStr name) = nth_error vs j.

(** Keys in the order of their first occurrence. *)
Fixpoint first_seen (ks : list value) : list value :=
  match ks with
  | [] => []
  | k :: ks' => k :: filter (fun k' => negb (value_eqb k k')) (first_seen ks')
  end.

(** The row's value under [key_column] is [k]. *)
Definition has_key (key_column : string) (k : value) (row : pydict) : bool :=
  match dict_lookup row (VStr key_column) with
  | Some k' => value_eqb k' k
  | None => false
  end.

(** The values under [key_column] of the rows that have one, in row
    order. *)
Definition row_keys (key_column : string) (arr : list pydict) : list value :=
  flat_map (fun row => match dict_lookup row (VStr key_column) with
                       | Some k => [k]
                       | None => []
                       end) arr.

(** Grouping as the specification words it: one bucket per key, the keys
    in first-seen order, each bucket holding the rows with that key in row
    order. *)
Definition group_by_spec (key_column : string) (arr : list pydict)
  : dict (list pydict) :=
  List.map (fun k => (k, filter (has_key key_column k) arr))
           (first_seen (row_keys key_column arr)).

(** Every row has a hashable value under [key_column]. *)
Definition keyed (key_column : string) (arr : list pydict) : Prop :=
  Forall (fun row => exists k,
            dict_lookup row (VStr key_column) = Some k /\ hashable k = true) arr.

(** [res_] is the exact partition of [arr] by [key_column]: it is the
    grouping of [arr]; its keys are the rows' key values in first-seen
    order, without repetition; the bucket of a key is not empty and holds,
    in row order, exactly the rows with that key; and the buckets,
    concatenated in key order, are a permutation of [arr]. *)
Definition partitioned (key_column : string) (arr : list pydict)
  (res_ : dict (list pydict)) : Prop :=
  res_ = group_by_spec key_column arr /\
  dict_keys res_ = first_seen (row_keys key_column arr) /\
  NoDup (dict_keys res_) /\
  (forall k bucket, In (k, bucket) res_ ->
     bucket <> [] /\ bucket = filter (has_key key_column k) arr) /\
  Permutation (concat (List.map snd res_)) arr.

(** The session's connection is missing, closed or invalidated. *)
Definition unavailable {L} (tk : Toolkit L) (self : SqlSession_obj)
  (w : World L) : Prop :=
  match _connection self with
  | None => True
  | Some c => conn_closed tk c (lib w) = true \/ conn_invalidated tk c (lib w) = true
  end.

(** ** Concrete runs on the in-memory toolkit *)

Module Run.
Import Mem.
Local Open Scope eff_scope.

(** [init(dsn)] followed by [get_session()]. *)
Definition open_session : M state (DataSource_obj * SqlSession_obj) :=
  ds <- DataSource.init toolkit DataSource.new [VStr "test://mem"] [] ;;
  s <- DataSource.get_session toolkit ds ;;
  ret (ds, s).

(** The data source, the session and the world that [open_session]
    leaves behind. *)
Definition ds1 : DataSource_obj := {| _engine := Some 0%nat; _pool := Some 0%nat |}.

Definition s1 : SqlSession_obj :=
  {| _data_source := Some ds1; _connection := Some 1%nat; _session := Some 1%nat |}.

Definition w_open : World state := after open_session world0.

(** The world after the session [s1] has been closed. *)
Definition w_closed : World state := after (SqlSession.close toolkit s1) w_open.

(** The world after the data source [ds1] has been closed once. *)
Definition w_disposed : World state := after (DataSource.close toolkit ds1) w_open.

End Run.

(** ** An outage on the in-memory toolkit *)

(** The in-memory toolkit after the database server has gone away: every
    [commit] raises.  [stdout_open] is a console on which [print(e)]
    returns, [stdout_closed] one on which it raises. *)
Module Outage.

Definition commit_error : exn :=
  SQLAlchemyError "(OperationalError) server closed the connection unexpectedly"
                  (Some "e3q8").


Definition toolkit : Toolkit Mem.state := {|
  create_engine := create_engine Mem.toolkit;
  engine_pool := engine_pool Mem.toolkit;
  engine_connect := engine_connect Mem.toolkit;
  engine_dispose := engine_dispose Mem.toolkit;
  conn_execution_options := conn_execution_options Mem.toolkit;
  conn_execute := conn_execute Mem.toolkit;
  conn_close := conn_close Mem.toolkit;
  conn_closed := conn_closed Mem.toolkit;
  conn_invalidated := conn_invalidated Mem.toolkit;
  cursor_description := cursor_description Mem.toolkit;
  result_fetchall := result_fetchall Mem.toolkit;
  result_fetchone := result_fetchone Mem.toolkit;
  orm_session := orm_session Mem.toolkit;
  session_execute := session_execute Mem.toolkit;
  session_commit := fun _ l => (Exc commit_error, l);
  session_rollback := session_rollback Mem.toolkit;
  session_close := session_close Mem.toolkit
|}.

Definition stdout_open : Console Mem.state :=
  {| print_object := fun _ l => (Ok tt, l) |}.


End Outage.

(** ** Further vocabulary *)

(** The value that a left-to-right fill leaves under [k]: that of the last
    pair whose key is [k]. *)
Fixpoint last_value (k : value) (pairs : list (value * value)) : option value :=
  match pairs with
  | [] => None
  | (k0, v0) :: rest =>
      match last_value k rest with
      | Some v => Some v
      | None => if value_eqb k0 k then Some v0 else None
      end
  end.

(** The dictionary [m] is [dict(pairs)]: its keys are the keys of [pairs]
    in the order of their first occurrence, and each key is bound to the
    value of its last occurrence. *)
Definition dict_of (pairs : list (value * value)) (m : pydict) : Prop :=
  dict_keys m = first_seen (List.map fst pairs) /\
  forall k, dict_lookup m k = last_value k pairs.

(** What leaves [select] and [select_one] when [e] is raised inside their
    [try] suite. *)
Definition select_error (e : exn) : exn :=
  match e with
  | SQLAlchemyError _ code =>
      DataSourceError ("database select Error: " ++ exn_str e)
        (Some (ObjExn e)) (Some (code_obj code))
  | _ => e
  end.

(** The [try] suite of [select] and [select_one] as one computation; the
    two methods differ in the fetch call only. *)
Definition query_body {L} (tk : Toolkit L) (self : SqlSession_obj)
  (sql : string) (params : pydict)
  (fetch_event : CursorResult -> Event)
  (fetch : CursorResult -> L -> res value * L) : M L pydict :=
  bind (attr (_connection self) "execute") (fun c =>
  bind (call (CallConnExecute c sql params) (conn_execute tk c sql params)) (fun result =>
  bind (SqlSession.column_names_of tk result) (fun column_names =>
  bind (call (fetch_event result) (fetch result)) (fun data_array =>
  ret [(VStr "column_names", VList column_names); (VStr "data", data_array)])))).

(* ===================================================================== *)
(** * Facts about values and dictionaries *)
(* ===================================================================== *)

Unset Implicit Arguments.

(** Induction on values that reaches the elements of tuples and lists and
    the keys and values of dictionaries. *)
Lemma value_ind_nested (P : value -> Prop)
  (HNone : P VNone)
  (HInt : forall z, P (VInt z))
  (HStr : forall s, P (VStr s))
  (HTuple : forall xs, Forall P xs -> P (VTuple xs))
  (HList : forall xs, Forall P xs -> P (VList xs))
  (HDict : forall items,
      Forall (fun kv => P (fst kv) /\ P (snd kv)) items -> P (VDict items)) :
  forall v, P v.
Proof.
  fix IH 1.
  intros [ | z | s | xs | xs | items ].
  - exact HNone.
  - apply HInt.
  - apply HStr.
  - apply HTuple. induction xs as [ | x xs' IHxs ]; constructor; [ apply IH | exact IHxs ].
  - apply HList. induction xs as [ | x xs' IHxs ]; constructor; [ apply IH | exact IHxs ].
  - apply HDict. induction items as [ | [k v] items' IHitems ]; constructor;
      [ split; apply IH | exact IHitems ].
Qed.

Lemma value_eqb_eq (a : value) : forall b, value_eqb a b = true <-> a = b.
Proof.
  induction a as [ | z | s | xs IHxs | xs IHxs | items IHitems ]
    using value_ind_nested;
    intros [ | z' | s' | ys | ys | items' ]; simpl;
    try (split; [ discriminate | discriminate ]);
    try (split; reflexivity).
  - rewrite Z.eqb_eq. split; [ intros ->; reflexivity | intros [= ->]; reflexivity ].
  - rewrite String.eqb_eq. split; [ intros ->; reflexivity | intros [= ->]; reflexivity ].
  - revert ys. induction IHxs as [ | x xs' Hx _ IH ]; intros [ | y ys ];
      try (split; [ discriminate | discriminate ]); try (split; reflexivity).
    rewrite andb_true_iff, Hx, IH.
    split; [ intros [-> [= ->]]; reflexivity | intros [= -> ->]; split; reflexivity ].
  - revert ys. induction IHxs as [ | x xs' Hx _ IH ]; intros [ | y ys ];
      try (split; [ discriminate | discriminate ]); try (split; reflexivity).
    rewrite andb_true_iff, Hx, IH.
    split; [ intros [-> [= ->]]; reflexivity | intros [= -> ->]; split; reflexivity ].
  - revert items'. induction IHitems as [ | [k v] items [Hk Hv] _ IH ];
      intros [ | [k' v'] items' ];
      try (split; [ discriminate | discriminate ]); try (split; reflexivity).
    simpl in Hk, Hv.
    rewrite !andb_true_iff, Hk, Hv, IH.
    split; [ intros [[-> ->] [= ->]]; reflexivity
           | intros [= -> -> ->]; repeat split; reflexivity ].
Qed.

Lemma value_eqb_refl (a : value) : value_eqb a a = true.
Proof. apply value_eqb_eq. reflexivity. Qed.

Lemma value_eqb_neq (a b : value) : a <> b -> value_eqb a b = false.
Proof.
  intros Hne. destruct (value_eqb a b) eqn:E; [ | reflexivity ].
  apply value_eqb_eq in E. contradiction.
Qed.

Lemma value_eqb_sym (a b : value) : value_eqb a b = value_eqb b a.
Proof.
  destruct (value_eqb a b) eqn:E.
  - apply value_eqb_eq in E. subst. symmetry. apply value_eqb_refl.
  - symmetry. apply value_eqb_neq. intros ->. rewrite value_eqb_refl in E. discriminate.
Qed.

Section DictFacts.
Variable V : Type.
Implicit Types (d : dict V) (k : value) (v : V).

Lemma dict_lookup_app d d' k :
  dict_lookup (d ++ d') k =
  match dict_lookup d k with
  | Some v => Some v
  | None => dict_lookup d' k
  end.
Proof.
  induction d as [ | [k0 v0] d IH ]; simpl; [ reflexivity | ].
  destruct (value_eqb k0 k); [ reflexivity | exact IH ].
Qed.

Lemma dict_store_fresh d k v :
  dict_lookup d k = None -> dict_store d k v = d ++ [(k, v)].
Proof.
  induction d as [ | [k0 v0] d IH ]; simpl; [ reflexivity | ].
  destruct (value_eqb k0 k); [ discriminate | ].
  intros H. rewrite (IH H). reflexivity.
Qed.

Lemma dict_store_last d k v v' :
  dict_lookup d k = None -> dict_store (d ++ [(k, v)]) k v' = d ++ [(k, v')].
Proof.
  induction d as [ | [k0 v0] d IH ]; simpl.
  - rewrite value_eqb_refl. reflexivity.
  - destruct (value_eqb k0 k); [ discriminate | ].
    intros H. rewrite (IH H). reflexivity.
Qed.

Lemma dict_lookup_store_same d k v :
  dict_lookup (dict_store d k v) k = Some v.
Proof.
  induction d as [ | [k0 v0] d IH ]; simpl.
  - rewrite value_eqb_refl. reflexivity.
  - destruct (value_eqb k0 k) eqn:E; simpl; rewrite E; [ reflexivity | exact IH ].
Qed.

Lemma dict_lookup_store_other d k k' v :
  k' <> k -> dict_lookup (dict_store d k v) k' = dict_lookup d k'.
Proof.
  intros Hne. induction d as [ | [k0 v0] d IH ]; simpl.
  - rewrite (value_eqb_neq _ _ (not_eq_sym Hne)). reflexivity.
  - destruct (value_eqb k0 k) eqn:E; simpl.
    + apply value_eqb_eq in E. subst k0.
      rewrite (value_eqb_neq _ _ (not_eq_sym Hne)). reflexivity.
    + destruct (value_eqb k0 k'); [ reflexivity | exact IH ].
Qed.

Lemma dict_keys_store_present d k v v0 :
  dict_lookup d k = Some v0 -> dict_keys (dict_store d k v) = dict_keys d.
Proof.
  unfold dict_keys.
  induction d as [ | [k1 v1] d IH ]; simpl; [ discriminate | ].
  destruct (value_eqb k1 k); simpl; [ reflexivity | ].
  intros H. rewrite (IH H). reflexivity.
Qed.
End DictFacts.

(** ** Dictionaries built from distinct column names *)

Lemma dict_fill_distinct (names : list string) :
  forall (vs : list value) (d : pydict),
    NoDup names ->
    (forall n, In n names -> dict_lookup d (VStr n) = None) ->
    dict_fill d (combine (List.map VStr names) vs)
    = Ok (d ++ combine (List.map VStr names) vs).
Proof.
  induction names as [ | n names IH ]; intros vs d Hnd Hfresh; simpl.
  - rewrite app_nil_r. reflexivity.
  - destruct vs as [ | v vs ]; simpl.
    + rewrite app_nil_r. reflexivity.
    + unfold dict_setitem. simpl.
      rewrite dict_store_fresh by (apply Hfresh; left; reflexivity).
      inversion Hnd as [ | ? ? Hnotin Hnd' ]; subst.
      rewrite IH; [ rewrite <- app_assoc; reflexivity | exact Hnd' | ].
      intros n' Hin. rewrite dict_lookup_app, Hfresh by (right; exact Hin).
      simpl. destruct (String.eqb_spec n n') as [ -> | _ ]; [ contradiction | reflexivity ].
Qed.

Lemma dict_keys_combine (names : list string) :
  forall vs : list value,
    length vs = length names ->
    dict_keys (combine (List.map VStr names) vs) = List.map VStr names.
Proof.
  unfold dict_keys.
  induction names as [ | n names IH ]; intros [ | v vs ] Hlen; simpl in *;
    try reflexivity; try discriminate.
  rewrite IH by congruence. reflexivity.
Qed.

Lemma dict_lookup_combine (names : list string) :
  forall (vs : list value) (j : nat) (name : string),
    NoDup names ->
    length vs = length names ->
    nth_error names j = Some name ->
    dict_lookup (combine (List.map VStr names) vs) (VStr name) = nth_error vs j.
Proof.
  induction names as [ | n names IH ]; intros [ | v vs ] j name Hnd Hlen Hj;
    simpl in *; try discriminate.
  - destruct j; discriminate.
  - inversion Hnd as [ | ? ? Hnotin Hnd' ]; subst.
    destruct j as [ | j ]; simpl in *.
    + injection Hj as ->. rewrite String.eqb_refl. reflexivity.
    + assert (Hne : n <> name).
      { intros ->. apply Hnotin. eapply nth_error_In; eassumption. }
      apply String.eqb_neq in Hne. rewrite Hne.
      apply IH; [ exact Hnd' | congruence | exact Hj ].
Qed.

(** The loop of [map] on rows that all zip against distinct names. *)
Lemma map_loop_distinct (inp : pydict) (names : list string) (columns : value) :
  dict_lookup inp (VStr "columns") = Some columns ->
  py_iter columns = Ok (List.map VStr names) ->
  NoDup names ->
  forall (rows : list value) (cells : list (list value)) (arr : list pydict),
    Forall2 (fun r vs => py_iter r = Ok vs /\ length vs = length names) rows cells ->
    AbstractDAO.for_each
      (fun data arr =>
         rbind (dict_getitem inp (VStr "columns")) (fun columns =>
         rbind (py_zip columns data) (fun pairs =>
         rbind (dict_fill [] pairs) (fun row => Ok (arr ++ [row])))))
      rows arr
    = Ok (arr ++ List.map (combine (List.map VStr names)) cells).
Proof.
  intros Hcol Hiter Hnd rows cells arr Hrows. revert arr.
  induction Hrows as [ | r vs rows cells [Hr Hlen] _ IH ]; intros arr; simpl.
  - rewrite app_nil_r. reflexivity.
  - cbn [AbstractDAO.for_each List.map].
    unfold dict_getitem at 1. cbn [hashable]. rewrite Hcol. cbn [rbind].
    unfold py_zip. rewrite Hiter, Hr. cbn [rbind].
    rewrite (dict_fill_distinct names vs []) by (auto; intros; reflexivity).
    cbn [rbind app]. rewrite IH, <- app_assoc. reflexivity.
Qed.

(* ===================================================================== *)
(** * AbstractDAO.map *)
(* ===================================================================== *)

Lemma Forall2_nth_error_r {A B} (R : A -> B -> Prop) (xs : list A) (ys : list B) :
  Forall2 R xs ys ->
  forall i y, nth_error ys i = Some y -> exists x, nth_error xs i = Some x /\ R x y.
Proof.
  induction 1 as [ | x y0 xs ys HR _ IH ]; intros [ | i ] y Hy; simpl in *;
    try discriminate.
  - injection Hy as <-. exists x. split; [ reflexivity | exact HR ].
  - apply IH. exact Hy.
Qed.

(** C6, amended: for a query result with N pairwise distinct column names
    and M rows of N values each, [map] returns M mappings in row order; the
    i-th mapping has exactly the N column names as keys, in column order,
    and binds the j-th name to the j-th value of the i-th row. *)
Theorem map_aligned_distinct_columns (inp : pydict) (names : list string)
  (cells : list (list value)) :
  query_result inp names cells ->
  NoDup names ->
  exists out, AbstractDAO.map inp = Ok out /\ aligned out names cells.
Proof.
  intros (columns & data & rows & Hcol & Hiter & Hdata & Hrows & Hcells) Hnd.
  exists (List.map (combine (List.map VStr names)) cells). split.
  - unfold AbstractDAO.map, dict_getitem. cbn [hashable]. rewrite Hdata.
    cbn [rbind]. rewrite Hrows. cbn [rbind].
    exact (map_loop_distinct inp names columns Hcol Hiter Hnd rows cells [] Hcells).
  - split; [ apply length_map | ].
    intros i vs Hi.
    destruct (Forall2_nth_error_r _ _ _ Hcells i vs Hi) as (r & _ & _ & Hlen).
    exists (combine (List.map VStr names) vs). split; [ | split ].
    + rewrite nth_error_map, Hi. reflexivity.
    + apply dict_keys_combine. exact Hlen.
    + intros j name Hj. apply dict_lookup_combine; assumption.
Qed.

(** The scenario of the specification: columns [id], [name] and the rows
    [(1, "a")], [(2, "b")]. *)
Lemma map_aligned_distinct_columns_witness :
  exists out,
    AbstractDAO.map
      [(VStr "columns", VList [VStr "id"; VStr "name"]);
       (VStr "data", VList Mem.rows_of_t)] = Ok out /\
    aligned out ["id"; "name"] [[VInt 1; VStr "a"]; [VInt 2; VStr "b"]].
Proof.
  apply (map_aligned_distinct_columns
           [(VStr "columns", VList [VStr "id"; VStr "name"]);
            (VStr "data", VList Mem.rows_of_t)]
           ["id"; "name"] [[VInt 1; VStr "a"]; [VInt 2; VStr "b"]]).
  - exists (VList [VStr "id"; VStr "name"]), (VList Mem.rows_of_t), Mem.rows_of_t.
    repeat split; repeat constructor.
  - repeat constructor; simpl; intuition discriminate.
Defined.

(** C6 as stated fails when a column name occurs twice: the later value
    takes the key, so the mapping has fewer than N keys and the earlier
    position is not aligned. *)
Lemma map_duplicate_columns_counterexample :
  let inp := [(VStr "columns", VList [VStr "id"; VStr "id"]);
              (VStr "data", VList [VTuple [VInt 1; VInt 2]])] in
  query_result inp ["id"; "id"] [[VInt 1; VInt 2]] /\
  AbstractDAO.map inp = Ok [[(VStr "id", VInt 2)]] /\
  forall out, AbstractDAO.map inp = Ok out ->
              ~ aligned out ["id"; "id"] [[VInt 1; VInt 2]].
Proof.
  cbv zeta. split; [ | split ].
  - exists (VList [VStr "id"; VStr "id"]), (VList [VTuple [VInt 1; VInt 2]]),
      [VTuple [VInt 1; VInt 2]].
    repeat split; repeat constructor.
  - reflexivity.
  - intros out Hout [_ Hal].
    vm_compute in Hout. injection Hout as <-.
    destruct (Hal 0%nat [VInt 1; VInt 2] eq_refl) as (m & Hm & Hkeys & _).
    injection Hm as <-. discriminate Hkeys.
Qed.

(* ===================================================================== *)
(** * AbstractDAO.hash_map *)
(* ===================================================================== *)

Lemma first_seen_In (k : value) (ks : list value) :
  In k (first_seen ks) <-> In k ks.
Proof.
  induction ks as [ | a ks IH ]; simpl; [ tauto | ].
  rewrite filter_In, IH, negb_true_iff.
  split.
  - intros [ H | [H _] ]; [ left | right ]; assumption.
  - intros [ H | H ]; [ left; assumption | ].
    destruct (value_eqb a k) eqn:E.
    + left. apply value_eqb_eq. exact E.
    + right. split; [ assumption | reflexivity ].
Qed.

Lemma first_seen_NoDup (ks : list value) : NoDup (first_seen ks).
Proof.
  induction ks as [ | a ks IH ]; simpl; constructor.
  - rewrite filter_In, value_eqb_refl. intros [_ H]. discriminate H.
  - apply NoDup_filter. exact IH.
Qed.

Lemma existsb_eqb_In (k : value) (ks : list value) :
  existsb (value_eqb k) ks = true <-> In k ks.
Proof.
  rewrite existsb_exists. split.
  - intros (x & Hin & E). apply value_eqb_eq in E. subst. exact Hin.
  - intros Hin. exists k. split; [ exact Hin | apply value_eqb_refl ].
Qed.

Lemma existsb_first_seen (k : value) (ks : list value) :
  existsb (value_eqb k) (first_seen ks) = existsb (value_eqb k) ks.
Proof.
  destruct (existsb (value_eqb k) ks) eqn:E.
  - apply existsb_eqb_In, first_seen_In, existsb_eqb_In. exact E.
  - destruct (existsb (value_eqb k) (first_seen ks)) eqn:E'; [ | reflexivity ].
    rewrite existsb_eqb_In, first_seen_In, <- existsb_eqb_In in E'. congruence.
Qed.

Lemma first_seen_snoc (ks : list value) (k : value) :
  first_seen (ks ++ [k]) =
  if existsb (value_eqb k) ks then first_seen ks else first_seen ks ++ [k].
Proof.
  induction ks as [ | a ks IH ]; simpl; [ reflexivity | ].
  rewrite IH. destruct (existsb (value_eqb k) ks) eqn:E.
  - rewrite orb_true_r. reflexivity.
  - rewrite orb_false_r, filter_app. simpl.
    rewrite (value_eqb_sym a k).
    destruct (value_eqb k a); simpl; [ rewrite app_nil_r | ]; reflexivity.
Qed.

Section Tabulate.
Variable V : Type.
Variable f : value -> V.

Lemma lookup_tabulate (ks : list value) (k : value) :
  dict_lookup (List.map (fun k' => (k', f k')) ks) k =
  if existsb (value_eqb k) ks then Some (f k) else None.
Proof.
  induction ks as [ | a ks IH ]; simpl; [ reflexivity | ].
  rewrite (value_eqb_sym k a).
  destruct (value_eqb a k) eqn:E; simpl; [ | exact IH ].
  apply value_eqb_eq in E. subst. reflexivity.
Qed.

Lemma store_tabulate_present (ks : list value) (k : value) (v : V) :
  NoDup ks -> In k ks ->
  dict_store (List.map (fun k' => (k', f k')) ks) k v =
  List.map (fun k' => (k', if value_eqb k' k then v else f k')) ks.
Proof.
  induction ks as [ | a ks IH ]; intros Hnd Hin; simpl; [ contradiction | ].
  inversion Hnd as [ | ? ? Hnotin Hnd' ]; subst.
  destruct (value_eqb a k) eqn:E.
  - apply value_eqb_eq in E. subst a. f_equal.
    apply map_ext_in. intros k' Hk'.
    rewrite value_eqb_neq; [ reflexivity | ].
    intros ->. contradiction.
  - f_equal. apply IH; [ exact Hnd' | ].
    destruct Hin as [ -> | Hin ]; [ | exact Hin ].
    rewrite value_eqb_refl in E. discriminate.
Qed.
End Tabulate.

Lemma row_keys_snoc (key_column : string) (p : list pydict) (r : pydict) (k : value) :
  dict_lookup r (VStr key_column) = Some k ->
  row_keys key_column (p ++ [r]) = row_keys key_column p ++ [k].
Proof.
  intros Hk. unfold row_keys. rewrite flat_map_app. simpl. rewrite Hk. reflexivity.
Qed.

Lemma filter_no_key (key_column : string) (k : value) (p : list pydict) :
  existsb (value_eqb k) (row_keys key_column p) = false ->
  filter (has_key key_column k) p = [].
Proof.
  induction p as [ | r p IH ]; simpl; [ reflexivity | ].
  unfold row_keys in *. simpl. rewrite existsb_app. intros H.
  apply orb_false_iff in H as [Hr Hp].
  rewrite (IH Hp). unfold has_key.
  destruct (dict_lookup r (VStr key_column)) as [ k' | ]; [ | reflexivity ].
  simpl in Hr. rewrite orb_false_r in Hr.
  rewrite value_eqb_sym, Hr. reflexivity.
Qed.

(** One turn of the loop takes the grouping of the rows seen so far to
    the grouping with the next row added. *)
Lemma hash_step_group (key_column : string) (p : list pydict) (r : pydict)
  (k : value) :
  dict_lookup r (VStr key_column) = Some k ->
  hashable k = true ->
  AbstractDAO.hash_step key_column r (group_by_spec key_column p)
  = Ok (group_by_spec key_column (p ++ [r])).
Proof.
  intros Hk Hh.
  assert (Hr : forall k', has_key key_column k' r = value_eqb k k').
  { intros k'. unfold has_key. rewrite Hk. reflexivity. }
  unfold AbstractDAO.hash_step, dict_getitem, dict_get, dict_setitem.
  cbn [hashable]. rewrite Hk. cbn [rbind]. rewrite Hh. cbn [rbind].
  unfold group_by_spec at 1 2.
  rewrite lookup_tabulate, existsb_first_seen.
  unfold group_by_spec.
  rewrite (row_keys_snoc key_column p r k Hk), first_seen_snoc.
  destruct (existsb (value_eqb k) (row_keys key_column p)) eqn:E.
  - f_equal. rewrite store_tabulate_present.
    + apply map_ext. intros k'.
      rewrite filter_app. simpl. rewrite Hr, (value_eqb_sym k' k).
      destruct (value_eqb k k') eqn:E'.
      * apply value_eqb_eq in E'. subst. reflexivity.
      * rewrite app_nil_r. reflexivity.
    + apply first_seen_NoDup.
    + apply first_seen_In, existsb_eqb_In. exact E.
  - cbn [rbind]. f_equal.
    assert (Hnone : dict_lookup
              (List.map (fun k0 => (k0, filter (has_key key_column k0) p))
                 (first_seen (row_keys key_column p))) k = None).
    { rewrite lookup_tabulate, existsb_first_seen, E. reflexivity. }
    rewrite (dict_store_fresh _ _ _ _ Hnone), (dict_store_last _ _ _ _ _ Hnone).
    rewrite map_app. simpl. f_equal.
    + apply map_ext_in. intros k' Hk'.
      rewrite filter_app. simpl. rewrite Hr.
      rewrite value_eqb_neq; [ rewrite app_nil_r; reflexivity | ].
      intros ->. rewrite first_seen_In, <- existsb_eqb_In in Hk'. congruence.
    + rewrite filter_app, (filter_no_key key_column k p E). simpl.
      rewrite Hr, value_eqb_refl. reflexivity.
Qed.

Lemma keyed_app (key_column : string) (p q : list pydict) :
  keyed key_column (p ++ q) <-> keyed key_column p /\ keyed key_column q.
Proof. apply Forall_app. Qed.

(** The loop of [hash_map], started on the grouping of the rows [p]. *)
Lemma hash_loop_group (key_column : string) (rest : list pydict) :
  forall p : list pydict,
    keyed key_column rest ->
    AbstractDAO.for_each (AbstractDAO.hash_step key_column) rest
      (group_by_spec key_column p)
    = Ok (group_by_spec key_column (p ++ rest)).
Proof.
  induction rest as [ | r rest IH ]; intros p Hkeyed; simpl.
  - rewrite app_nil_r. reflexivity.
  - inversion Hkeyed as [ | ? ? (k & Hk & Hh) Hrest ]; subst.
    rewrite (hash_step_group key_column p r k Hk Hh). cbn [rbind].
    rewrite (IH (p ++ [r]) Hrest), <- app_assoc. reflexivity.
Qed.

(** Buckets that cover the keys of all rows, listed without repetition,
    hold every row once. *)
Lemma buckets_permutation (key_column : string) (ks : list value) :
  NoDup ks ->
  forall p : list pydict,
    Forall (fun row => exists k,
              dict_lookup row (VStr key_column) = Some k /\ In k ks) p ->
    Permutation (concat (List.map (fun k => filter (has_key key_column k) p) ks)) p.
Proof.
  intros Hnd p. induction p as [ | r p IH ]; intros Hp.
  - simpl. clear. induction ks as [ | a ks IH ]; simpl; [ constructor | exact IH ].
  - inversion Hp as [ | ? ? (k & Hk & Hin) Hp' ]; subst.
    specialize (IH Hp').
    apply Permutation_trans with
      (r :: concat (List.map (fun k => filter (has_key key_column k) p) ks));
      [ | constructor; exact IH ].
    clear IH Hp Hp'. revert Hnd Hin.
    induction ks as [ | a ks IHks ]; intros Hnd Hin; [ contradiction | ].
    inversion Hnd as [ | ? ? Hnotin Hnd' ]; subst.
    cbn [List.map concat].
    assert (Ha : has_key key_column a r = value_eqb k a)
      by (unfold has_key; rewrite Hk; reflexivity).
    replace (filter (has_key key_column a) (r :: p))
      with (if value_eqb k a then r :: filter (has_key key_column a) p
            else filter (has_key key_column a) p)
      by (cbn [filter]; rewrite Ha; reflexivity).
    clear Ha.
    destruct (value_eqb k a) eqn:E.
    + apply value_eqb_eq in E. subst a. cbn [app]. constructor.
      apply Permutation_app_head.
      assert (Hsame : List.map (fun k0 => filter (has_key key_column k0) (r :: p)) ks
                      = List.map (fun k0 => filter (has_key key_column k0) p) ks).
      { apply map_ext_in. intros k' Hk'. cbn [filter].
        replace (has_key key_column k' r) with false; [ reflexivity | ].
        unfold has_key. rewrite Hk. symmetry. apply value_eqb_neq.
        intros ->. contradiction. }
      rewrite Hsame. apply Permutation_refl.
    + destruct Hin as [ -> | Hin ]; [ rewrite value_eqb_refl in E; discriminate | ].
      apply Permutation_trans with
        (filter (has_key key_column a) p
           ++ r :: concat (List.map (fun k0 => filter (has_key key_column k0) p) ks)).
      * apply Permutation_app_head. apply IHks; assumption.
      * apply Permutation_sym, Permutation_middle.
Qed.

Lemma group_by_spec_keys (key_column : string) (arr : list pydict) :
  dict_keys (group_by_spec key_column arr) = first_seen (row_keys key_column arr).
Proof.
  unfold dict_keys, group_by_spec. rewrite map_map. simpl. apply map_id.
Qed.

Lemma row_keys_In (key_column : string) (arr : list pydict) (row : pydict) (k : value) :
  In row arr -> dict_lookup row (VStr key_column) = Some k ->
  In k (row_keys key_column arr).
Proof.
  intros Hin Hk. unfold row_keys. apply in_flat_map.
  exists row. split; [ exact Hin | ]. rewrite Hk. left. reflexivity.
Qed.

(** C7, amended: when [map] succeeds and every mapped row has a hashable
    value under [key_column], [hash_map] returns the grouping of [map]'s
    output: the keys are the rows' key values in first-seen order, without
    repetition; the bucket of a key holds, in row order, exactly the rows
    with that key, and is not empty; and the buckets, concatenated in key
    order, are a permutation of [map]'s output. *)
Theorem hash_map_partition (inp : pydict) (key_column : string)
  (arr : list pydict) :
  AbstractDAO.map inp = Ok arr ->
  keyed key_column arr ->
  exists res_,
    AbstractDAO.hash_map inp key_column = Ok res_ /\ partitioned key_column arr res_.
Proof.
  intros Hmap Hkeyed.
  exists (group_by_spec key_column arr).
  split; [ | split; [ reflexivity | split; [ | split; [ | split ] ] ] ].
  - unfold AbstractDAO.hash_map. rewrite Hmap. cbn [rbind].
    exact (hash_loop_group key_column arr [] Hkeyed).
  - apply group_by_spec_keys.
  - rewrite group_by_spec_keys. apply first_seen_NoDup.
  - intros k bucket Hin. unfold group_by_spec in Hin.
    apply in_map_iff in Hin as (k' & [= -> <-] & Hk').
    split; [ | reflexivity ].
    rewrite first_seen_In in Hk'. unfold row_keys in Hk'.
    rewrite in_flat_map in Hk'. destruct Hk' as (row & Hrow & Hk').
    destruct (dict_lookup row (VStr key_column)) as [ k0 | ] eqn:E;
      [ | contradiction ].
    destruct Hk' as [ -> | [] ].
    intros Hempty.
    assert (Hin : In row (filter (has_key key_column k) arr)).
    { apply filter_In. split; [ exact Hrow | ].
      unfold has_key. rewrite E. apply value_eqb_refl. }
    rewrite Hempty in Hin. contradiction.
  - unfold group_by_spec. rewrite map_map. simpl.
    apply buckets_permutation; [ apply first_seen_NoDup | ].
    unfold keyed in Hkeyed. rewrite Forall_forall in *.
    intros row Hrow. destruct (Hkeyed row Hrow) as (k & Hk & _).
    exists k. split; [ exact Hk | ].
    apply first_seen_In. eapply row_keys_In; eassumption.
Qed.

(** Three rows whose keys are 1, 2, 1. *)
Lemma hash_map_partition_witness :
  exists res_,
    AbstractDAO.hash_map
      [(VStr "columns", VList [VStr "id"; VStr "name"]);
       (VStr "data", VList [VTuple [VInt 1; VStr "a"]; VTuple [VInt 2; VStr "b"];
                            VTuple [VInt 1; VStr "c"]])] "id" = Ok res_ /\
    partitioned "id"
      [[(VStr "id", VInt 1); (VStr "name", VStr "a")];
       [(VStr "id", VInt 2); (VStr "name", VStr "b")];
       [(VStr "id", VInt 1); (VStr "name", VStr "c")]] res_.
Proof.
  apply (hash_map_partition
           [(VStr "columns", VList [VStr "id"; VStr "name"]);
            (VStr "data", VList [VTuple [VInt 1; VStr "a"]; VTuple [VInt 2; VStr "b"];
                                 VTuple [VInt 1; VStr "c"]])] "id").
  - reflexivity.
  - repeat constructor; eexists; split; reflexivity.
Defined.

(** C7 as stated fails when rows with the same key are not adjacent: with
    the keys 1, 2, 1 the buckets concatenate to the first, third and second
    row, which is not [map]'s output. *)
Lemma hash_map_interleaved_counterexample :
  let inp := [(VStr "columns", VList [VStr "id"; VStr "name"]);
              (VStr "data", VList [VTuple [VInt 1; VStr "a"]; VTuple [VInt 2; VStr "b"];
                                   VTuple [VInt 1; VStr "c"]])] in
  exists arr res_,
    AbstractDAO.map inp = Ok arr /\
    Forall (fun row => dict_lookup row (VStr "id") <> None) arr /\
    AbstractDAO.hash_map inp "id" = Ok res_ /\
    concat (List.map snd res_) <> arr.
Proof.
  cbv zeta. eexists. eexists. split; [ reflexivity | ]. split; [ | split ].
  - repeat constructor; discriminate.
  - reflexivity.
  - discriminate.
Qed.

(* ===================================================================== *)
(** * SqlSession *)
(* ===================================================================== *)

Section SessionFacts.
Context {L : Type} (tk : Toolkit L).

(** The statement in the [try] suite of [insert] and [execute]. *)
Lemma write_outcome (self : SqlSession_obj) (sql : string) (data : value)
  (w : World L) :
  SqlSession.write tk self sql data w =
  let attempt :=
    bind (bind (attr (_session self) "execute")
               (fun s => call (CallSessionExecute s sql data)
                              (session_execute tk s sql data)))
         (fun _ => SqlSession.commit tk self) in
  (match fst (attempt w) with
   | Ok _ => Ok (Some true)
   | Exc _ => Ok (Some false)
   end, snd (attempt w)).
Proof.
  cbv beta iota zeta delta
    [SqlSession.write SqlSession.write_handlers SqlSession.commit
     run_body try_ seq expr_ return_ assign raise_ ret bind attr raise call
     find fst snd].
  destruct (_session self) as [ s | ]; [ | reflexivity ].
  destruct (session_execute tk s sql data (lib w)) as [[ [] | e ] l1].
  - cbv beta iota zeta delta [lib log].
    destruct (session_commit tk s l1) as [[ [] | e ] l2]; [ reflexivity | ].
    destruct e; reflexivity.
  - destruct e; reflexivity.
Qed.
End SessionFacts.

Example open_session_runs :
  Run.open_session Mem.world0 = (Ok (Run.ds1, Run.s1), Run.w_open).
Proof. reflexivity. Qed.

(** C1: [insert] and [execute] return [True] when execute-then-commit
    succeeds; when it fails they return [False] and the exception raised in
    the [except] clause is discarded by [finally: return result], so no
    exception reaches the caller.  On the in-memory toolkit, [execute] of a
    statement on a missing table returns [False] although the engine
    raised. *)
Theorem write_failure_is_not_raised :
  (forall (L : Type) (tk : Toolkit L) (self : SqlSession_obj) (sql : string)
          (data_list : value) (params : pydict) (w : World L),
      let attempt data :=
        bind (bind (attr (_session self) "execute")
                   (fun s => call (CallSessionExecute s sql data)
                                  (session_execute tk s sql data)))
             (fun _ => SqlSession.commit tk self) in
      SqlSession.insert tk self sql data_list w =
        (match fst (attempt data_list w) with
         | Ok _ => Ok (Some true)
         | Exc _ => Ok (Some false)
         end, snd (attempt data_list w)) /\
      SqlSession.execute tk self sql params w =
        (match fst (attempt (VDict params) w) with
         | Ok _ => Ok (Some true)
         | Exc _ => Ok (Some false)
         end, snd (attempt (VDict params) w))) /\
  fst (session_execute Mem.toolkit 1%nat Mem.delete_u (VDict []) (lib Run.w_open))
    = Exc Mem.no_such_table /\
  fst (SqlSession.execute Mem.toolkit Run.s1 Mem.delete_u [] Run.w_open)
    = Ok (Some false).
Proof.
  split; [ | split; reflexivity ].
  intros L tk self sql data_list params w. cbv zeta.
  split; apply write_outcome.
Qed.

(** C2: on the scenario of the specification [select] returns a mapping
    whose keys are ['column_names'] and ['data'], and [map], which reads
    [inp["columns"]], raises [KeyError] on it. *)
Theorem select_result_not_consumed_by_map :
  fst (SqlSession.select Mem.toolkit Run.s1 Mem.select_t [] Run.w_open)
    = Ok (Some [(VStr "column_names", VList [VStr "id"; VStr "name"]);
                (VStr "data", VList [VTuple [VInt 1; VStr "a"];
                                     VTuple [VInt 2; VStr "b"]])]) /\
  AbstractDAO.map [(VStr "column_names", VList [VStr "id"; VStr "name"]);
                   (VStr "data", VList [VTuple [VInt 1; VStr "a"];
                                        VTuple [VInt 2; VStr "b"]])]
    = Exc (KeyError (VStr "columns")) /\
  AbstractDAO.map [(VStr "columns", VList [VStr "id"; VStr "name"]);
                   (VStr "data", VList [VTuple [VInt 1; VStr "a"];
                                        VTuple [VInt 2; VStr "b"]])]
    = Ok [[(VStr "id", VInt 1); (VStr "name", VStr "a")];
          [(VStr "id", VInt 2); (VStr "name", VStr "b")]].
Proof. repeat split. Qed.

Section GuardFacts.
Context {L : Type} (tk : Toolkit L).

Lemma unavailable_is_available (self : SqlSession_obj) (w : World L) :
  unavailable tk self w -> SqlSession.is_available tk self w = false.
Proof.
  unfold unavailable, SqlSession.is_available.
  destruct (_connection self) as [ c | ]; [ | reflexivity ].
  intros [ -> | -> ]; [ reflexivity | apply andb_false_r ].
Qed.

(** What [select] and [select_one] do first on a bound connection. *)
Lemma select_calls_engine (self : SqlSession_obj) (c : Connection)
  (sql : string) (params : pydict) (w : World L) :
  _connection self = Some c ->
  (exists tail,
      log (snd (SqlSession.select tk self sql params w))
      = log w ++ CallConnExecute c sql params :: tail) /\
  (exists tail,
      log (snd (SqlSession.select_one tk self sql params w))
      = log w ++ CallConnExecute c sql params :: tail).
Proof.
  intros Hc.
  cbv beta iota zeta delta
    [SqlSession.select SqlSession.select_one SqlSession.select_handlers
     SqlSession.column_names_of
     run_body try_ seq expr_ return_ assign raise_ pass ret bind attr raise
     call lift find fst snd].
  rewrite Hc.
  destruct (conn_execute tk c sql params (lib w)) as [[ r | e ] l1].
  - cbv beta iota zeta delta [lib log].
    destruct (cursor_description tk r l1) as [ d | e ].
    + destruct (py_iter d) as [ descs | e ].
      * destruct (comprehension py_index0 descs) as [ names | e ].
        -- split.
           ++ destruct (result_fetchall tk r l1) as [[ v | e ] l2].
              ** exists [CallFetchall r]. cbn. rewrite <- app_assoc. reflexivity.
              ** exists [CallFetchall r]. destruct e; cbn; rewrite <- app_assoc; reflexivity.
           ++ destruct (result_fetchone tk r l1) as [[ v | e ] l2].
              ** exists [CallFetchone r]. cbn. rewrite <- app_assoc. reflexivity.
              ** exists [CallFetchone r]. destruct e; cbn; rewrite <- app_assoc; reflexivity.
        -- split; exists []; destruct e; reflexivity.
      * split; exists []; destruct e; reflexivity.
    + split; exists []; destruct e; reflexivity.
  - split; exists []; destruct e; reflexivity.
Qed.

(** What [insert] and [execute] do first on a bound ORM session. *)
Lemma write_calls_engine (self : SqlSession_obj) (s : OrmSession)
  (sql : string) (data : value) (w : World L) :
  _session self = Some s ->
  exists tail,
    log (snd (SqlSession.write tk self sql data w))
    = log w ++ CallSessionExecute s sql data :: tail.
Proof.
  intros Hs. rewrite write_outcome. cbv zeta.
  cbv beta iota zeta delta [SqlSession.commit bind attr ret raise call fst snd].
  rewrite Hs.
  destruct (session_execute tk s sql data (lib w)) as [[ [] | e ] l1].
  - cbv beta iota zeta delta [lib log].
    destruct (session_commit tk s l1) as [[ [] | e ] l2];
      exists [CallSessionCommit s]; cbn; rewrite <- app_assoc; reflexivity.
  - exists []. reflexivity.
Qed.

(** Without a connection [select] and [select_one] fail on the attribute
    access, before anything is asked of the engine. *)
Lemma select_without_connection (self : SqlSession_obj)
  (sql : string) (params : pydict) (w : World L) :
  _connection self = None ->
  SqlSession.select tk self sql params w
    = (Exc (AttributeError "'NoneType' object has no attribute 'execute'"), w) /\
  SqlSession.select_one tk self sql params w
    = (Exc (AttributeError "'NoneType' object has no attribute 'execute'"), w).
Proof.
  intros Hc.
  cbv beta iota zeta delta
    [SqlSession.select SqlSession.select_one SqlSession.select_handlers
     SqlSession.column_names_of
     run_body try_ seq expr_ return_ assign raise_ pass ret bind attr raise
     call lift find fst snd].
  rewrite Hc. split; reflexivity.
Qed.

(** Without an ORM session [insert] and [execute] return [False]. *)
Lemma write_without_session (self : SqlSession_obj)
  (sql : string) (data : value) (w : World L) :
  _session self = None ->
  SqlSession.write tk self sql data w = (Ok (Some false), w).
Proof.
  intros Hs. rewrite write_outcome. cbv zeta.
  unfold bind, attr, raise. rewrite Hs. reflexivity.
Qed.
End GuardFacts.

(** C3, amended: for a session whose connection is missing, closed or
    invalidated, [is_available] is false, and [check_availability] and
    every method wrapped by [check_needed] raise the "not available"
    [DataSourceError] before anything is asked of the engine.  The
    decorator is not applied to the data operations, and none of them
    checks availability.  When a connection is bound, [select] and
    [select_one] start with the engine's [execute] on it; when none is,
    they raise [AttributeError] and ask nothing of the engine.  When an ORM
    session is bound, [insert] and [execute] start with its [execute];
    when none is, they return [False] and ask nothing of the engine. *)
Theorem unavailable_session_guard {L : Type} (tk : Toolkit L)
  (self : SqlSession_obj) (w : World L) :
  unavailable tk self w ->
  SqlSession.is_available tk self w = false /\
  SqlSession.check_availability tk self w
    = (Exc (DataSourceError1 SqlSession.not_available_message), w) /\
  (forall (A : Type) (func : SqlSession_obj -> list pyobject -> M L A)
          (rest : list pyobject),
      SqlSession.check_needed tk func (PSqlSession self :: rest) w
      = (Exc (DataSourceError1 SqlSession.not_available_message), w)) /\
  (forall sql params,
      match _connection self with
      | Some c =>
          (exists tail, log (snd (SqlSession.select tk self sql params w))
                        = log w ++ CallConnExecute c sql params :: tail) /\
          (exists tail, log (snd (SqlSession.select_one tk self sql params w))
                        = log w ++ CallConnExecute c sql params :: tail)
      | None =>
          SqlSession.select tk self sql params w
            = (Exc (AttributeError "'NoneType' object has no attribute 'execute'"), w) /\
          SqlSession.select_one tk self sql params w
            = (Exc (AttributeError "'NoneType' object has no attribute 'execute'"), w)
      end) /\
  (forall sql data_list params,
      match _session self with
      | Some s =>
          (exists tail, log (snd (SqlSession.insert tk self sql data_list w))
                        = log w ++ CallSessionExecute s sql data_list :: tail) /\
          (exists tail, log (snd (SqlSession.execute tk self sql params w))
                        = log w ++ CallSessionExecute s sql (VDict params) :: tail)
      | None =>
          SqlSession.insert tk self sql data_list w = (Ok (Some false), w) /\
          SqlSession.execute tk self sql params w = (Ok (Some false), w)
      end).
Proof.
  intros Hun. pose proof (unavailable_is_available tk self w Hun) as Hav.
  assert (Hcheck : SqlSession.check_availability tk self w
                   = (Exc (DataSourceError1 SqlSession.not_available_message), w)).
  { unfold SqlSession.check_availability. rewrite Hav. reflexivity. }
  split; [ exact Hav | ]. split; [ exact Hcheck | ]. split; [ | split ].
  - intros A func rest. unfold SqlSession.check_needed, bind.
    rewrite Hcheck. reflexivity.
  - intros sql params. destruct (_connection self) as [ c | ] eqn:Hc.
    + apply select_calls_engine. exact Hc.
    + apply select_without_connection. exact Hc.
  - intros sql data_list params. destruct (_session self) as [ s | ] eqn:Hs.
    + split; apply write_calls_engine; exact Hs.
    + split; apply write_without_session; exact Hs.
Qed.

(** The session [s1] after [close]: its connection is closed. *)
Lemma unavailable_session_guard_witness :
  SqlSession.is_available Mem.toolkit Run.s1 Run.w_closed = false /\
  SqlSession.check_availability Mem.toolkit Run.s1 Run.w_closed
    = (Exc (DataSourceError1 SqlSession.not_available_message), Run.w_closed) /\
  (exists tail,
      log (snd (SqlSession.select Mem.toolkit Run.s1 Mem.select_t [] Run.w_closed))
      = log Run.w_closed ++ CallConnExecute 1%nat Mem.select_t [] :: tail).
Proof.
  destruct (unavailable_session_guard Mem.toolkit Run.s1 Run.w_closed)
    as (Hav & Hcheck & _ & Hselect & _).
  - left. reflexivity.
  - split; [ exact Hav | ]. split; [ exact Hcheck | ].
    exact (proj1 (Hselect Mem.select_t [])).
Defined.

(** C3 as stated fails: on the closed session [select] hands the statement
    to the engine and raises the wrapped engine error, not the "not
    available" error, and [insert] asks the engine as well and returns
    [False] without raising. *)
Lemma closed_session_counterexample :
  SqlSession.is_available Mem.toolkit Run.s1 Run.w_closed = false /\
  SqlSession.select Mem.toolkit Run.s1 Mem.select_t [] Run.w_closed
    = (Exc (DataSourceError "database select Error: This Connection is closed"
              (Some (ObjExn Mem.closed_error)) (Some (ObjValue VNone))),
       {| lib := lib Run.w_closed;
          log := log Run.w_closed ++ [CallConnExecute 1%nat Mem.select_t []] |}) /\
  SqlSession.insert Mem.toolkit Run.s1 Mem.insert_t (VList []) Run.w_closed
    = (Ok (Some false),
       {| lib := lib Run.w_closed;
          log := log Run.w_closed
                 ++ [CallSessionExecute 1%nat Mem.insert_t (VList [])] |}).
Proof. repeat split. Qed.



(** C10: on a session as constructed, [is_available] is false,
    [check_availability] raises [DataSourceError], and [close], [commit]
    and [rollback] raise [AttributeError] on the missing ORM session; none
    of them reaches the engine. *)
Theorem fresh_session_is_unbound {L : Type} (tk : Toolkit L) (w : World L) :
  SqlSession.is_available tk SqlSession.new w = false /\
  SqlSession.check_availability tk SqlSession.new w
    = (Exc (DataSourceError1 SqlSession.not_available_message), w) /\
  SqlSession.close tk SqlSession.new w
    = (Exc (AttributeError "'NoneType' object has no attribute 'close'"), w) /\
  SqlSession.commit tk SqlSession.new w
    = (Exc (AttributeError "'NoneType' object has no attribute 'commit'"), w) /\
  SqlSession.rollback tk SqlSession.new w
    = (Exc (AttributeError "'NoneType' object has no attribute 'rollback'"), w).
Proof. repeat split. Qed.

(* ===================================================================== *)
(** * DataSource *)
(* ===================================================================== *)

(** C5: on a data source as constructed, [is_initialized] is false and
    [get_session], [release_session] and [close] raise the "not
    initialized" [DataSourceError] with nothing asked of the engine and
    nothing printed. *)
Theorem uninitialized_data_source_guard {L : Type} (tk : Toolkit L)
  (session : SqlSession_obj) (w : World L) :
  DataSource.is_initialized DataSource.new = false /\
  DataSource.check_initialization DataSource.new w
    = (Exc (DataSourceError1 DataSource.not_initialized_message), w) /\
  DataSource.get_session tk DataSource.new w
    = (Exc (DataSourceError1 DataSource.not_initialized_message), w) /\
  DataSource.release_session DataSource.new session w
    = (Exc (DataSourceError1 DataSource.not_initialized_message), w) /\
  DataSource.close tk DataSource.new w
    = (Exc (DataSourceError1 DataSource.not_initialized_message), w).
Proof. repeat split. Qed.

Lemma requires_init_passes {L A : Type}
  (func : DataSource_obj -> list pyobject -> M L A)
  (self : DataSource_obj) (rest : list pyobject) (w : World L) :
  DataSource.is_initialized self = true ->
  DataSource.requires_init func (PDataSource self :: rest) w = func self rest w.
Proof.
  intros Hinit.
  unfold DataSource.requires_init, DataSource.check_initialization, bind.
  rewrite Hinit. reflexivity.
Qed.

(** C4, amended: [close()] only calls the engine's [dispose()] and leaves
    the engine bound.  After it, [is_initialized] is still true and the
    guard passes: [release_session] returns normally, a second [close()]
    calls [dispose()] again and ends as that call ends, and [get_session]
    asks the engine for a connection. *)
Theorem close_keeps_data_source_initialized {L : Type} (tk : Toolkit L)
  (self : DataSource_obj) (e : Engine) (session : SqlSession_obj) (w : World L) :
  _engine self = Some e ->
  let w1 := snd (DataSource.close tk self w) in
  DataSource.close tk self w = call (CallDispose e) (engine_dispose tk e) w /\
  DataSource.is_initialized self = true /\
  DataSource.check_initialization self w1 = (Ok tt, w1) /\
  DataSource.release_session self session w1 = (Ok tt, w1) /\
  DataSource.close tk self w1 = call (CallDispose e) (engine_dispose tk e) w1 /\
  exists tail,
    log (snd (DataSource.get_session tk self w1)) = log w1 ++ CallConnect e :: tail.
Proof.
  intros He. cbv zeta.
  assert (Hinit : DataSource.is_initialized self = true).
  { unfold DataSource.is_initialized. rewrite He. reflexivity. }
  assert (Hclose : forall w0, DataSource.close tk self w0
                              = call (CallDispose e) (engine_dispose tk e) w0).
  { intros w0. unfold DataSource.close.
    rewrite requires_init_passes by exact Hinit.
    unfold DataSource.close_body, bind, attr. rewrite He. reflexivity. }
  split; [ apply Hclose | ]. split; [ exact Hinit | ].
  set (w1 := snd (DataSource.close tk self w)). clearbody w1.
  split; [ | split; [ | split; [ apply Hclose | ] ] ].
  - unfold DataSource.check_initialization. rewrite Hinit. reflexivity.
  - unfold DataSource.release_session.
    rewrite requires_init_passes by exact Hinit. reflexivity.
  - unfold DataSource.get_session.
    rewrite requires_init_passes by exact Hinit.
    unfold DataSource.get_session_body, SqlSession.init, bind, attr, ret, raise, call.
    rewrite He. cbv beta iota.
    destruct (engine_connect tk e (lib w1)) as [[ c0 | x ] l1];
      [ | exists []; reflexivity ].
    cbv beta iota zeta delta [lib log].
    destruct (conn_execution_options tk c0 false l1) as [[ c | x ] l2].
    + destruct (orm_session tk c l2) as [[ s | x ] l3];
        exists [CallExecutionOptions c0 false; CallOrmSession c];
        cbn; rewrite <- !app_assoc; reflexivity.
    + exists [CallExecutionOptions c0 false]. cbn. rewrite <- app_assoc. reflexivity.
Qed.

(** The data source [ds1] of the in-memory run, closed once. *)
Lemma close_keeps_data_source_initialized_witness :
  DataSource.is_initialized Run.ds1 = true /\
  DataSource.release_session Run.ds1 Run.s1 Run.w_disposed = (Ok tt, Run.w_disposed) /\
  DataSource.close Mem.toolkit Run.ds1 Run.w_disposed
    = call (CallDispose 0%nat) (engine_dispose Mem.toolkit 0%nat) Run.w_disposed.
Proof.
  destruct (close_keeps_data_source_initialized Mem.toolkit Run.ds1 0%nat Run.s1
              Run.w_open eq_refl) as (_ & Hinit & _ & Hrelease & Hclose & _).
  split; [ exact Hinit | ]. split; [ exact Hrelease | exact Hclose ].
Defined.

(** C4 as stated fails: after one [close()] nothing raises.  The second
    [close()] returns, and so do [release_session] and [get_session]. *)
Lemma close_twice_counterexample :
  fst (DataSource.close Mem.toolkit Run.ds1 Run.w_open) = Ok tt /\
  fst (DataSource.close Mem.toolkit Run.ds1 Run.w_disposed) = Ok tt /\
  fst (DataSource.release_session Run.ds1 Run.s1 Run.w_disposed) = Ok tt /\
  fst (DataSource.get_session Mem.toolkit Run.ds1 Run.w_disposed)
    = Ok {| _data_source := Some Run.ds1;
            _connection := Some 2%nat;
            _session := Some 2%nat |}.
Proof. repeat split. Qed.

(** C9, amended: [init] hands its positional arguments to pool construction
    unchanged, and its keyword arguments with [connect_args] set to exactly
    [{'connect_timeout': 10}]: every other keyword argument keeps its
    value, and connection options that the caller supplied under
    [connect_args] are replaced, not merged. *)
Theorem init_passes_configuration {L : Type} (tk : Toolkit L)
  (self : DataSource_obj) (args : list value) (kwargs : pydict) (w : World L) :
  let kwargs1 := dict_store kwargs (VStr "connect_args")
                   (VDict [(VStr "connect_timeout", VInt 10)]) in
  log (snd (DataSource.init tk self args kwargs w))
    = log w ++ [CallCreateEngine args kwargs1] /\
  dict_lookup kwargs1 (VStr "connect_args")
    = Some (VDict [(VStr "connect_timeout", VInt 10)]) /\
  (forall k, k <> VStr "connect_args" ->
             dict_lookup kwargs1 k = dict_lookup kwargs k) /\
  (forall engine l1,
      create_engine tk args kwargs1 (lib w) = (Ok engine, l1) ->
      fst (DataSource.init tk self args kwargs w)
      = Ok {| _engine := Some engine; _pool := Some (engine_pool tk engine l1) |}).
Proof.
  cbv zeta. split; [ | split; [ | split ] ].
  - unfold DataSource.init, bind, lift, call, attr, ret. cbn.
    destruct (create_engine tk args _ (lib w)) as [[ engine | x ] l1]; reflexivity.
  - apply dict_lookup_store_same.
  - intros k Hk. apply dict_lookup_store_other. exact Hk.
  - intros engine l1 Hcreate.
    unfold DataSource.init, bind, lift, call, attr, ret. cbn.
    rewrite Hcreate. reflexivity.
Qed.

(** C9 as stated fails: connection options supplied by the caller do not
    reach pool construction. *)
Lemma init_connect_args_counterexample :
  let kwargs := [(VStr "echo", VInt 1);
                 (VStr "connect_args", VDict [(VStr "sslmode", VStr "require")])] in
  log (snd (DataSource.init Mem.toolkit DataSource.new [VStr "test://mem"] kwargs
              Mem.world0))
  = [CallCreateEngine [VStr "test://mem"]
       [(VStr "echo", VInt 1);
        (VStr "connect_args", VDict [(VStr "connect_timeout", VInt 10)])]].
Proof. reflexivity. Qed.

(* ===================================================================== *)
(** * Further properties of AbstractDAO *)
(* ===================================================================== *)

Lemma for_each_app {A S : Type} (body : A -> S -> res S) (xs ys : list A) (s : S) :
  AbstractDAO.for_each body (xs ++ ys) s
  = rbind (AbstractDAO.for_each body xs s) (AbstractDAO.for_each body ys).
Proof.
  revert s. induction xs as [ | x xs IH ]; intros s; simpl; [ reflexivity | ].
  destruct (body x s) as [ s' | e ]; simpl; [ apply IH | reflexivity ].
Qed.

(** The loop of [map] adds one mapping per row it gets through. *)
Lemma map_loop_length (inp : pydict) (rows : list value) :
  forall arr out : list pydict,
    AbstractDAO.for_each
      (fun data arr =>
         rbind (dict_getitem inp (VStr "columns")) (fun columns =>
         rbind (py_zip columns data) (fun pairs =>
         rbind (dict_fill [] pairs) (fun row => Ok (arr ++ [row])))))
      rows arr = Ok out ->
    length out = (length arr + length rows)%nat.
Proof.
  induction rows as [ | r rows IH ]; intros arr out H; cbn [AbstractDAO.for_each] in H.
  - injection H as <-. simpl. lia.
  - destruct (dict_getitem inp (VStr "columns")) as [ columns | e ];
      cbn [rbind] in H; [ | discriminate ].
    destruct (py_zip columns r) as [ pairs | e ]; cbn [rbind] in H; [ | discriminate ].
    destruct (dict_fill [] pairs) as [ row | e ]; cbn [rbind] in H; [ | discriminate ].
    apply IH in H. rewrite length_app in H. cbn [length] in *.
    rewrite H, <- Nat.add_assoc. reflexivity.
Qed.

(** X1: whenever [map] returns, its input has a ["data"] entry that can be
    iterated, and the result has exactly one mapping per row. *)
Theorem map_one_mapping_per_row (inp : pydict) (out : list pydict) :
  AbstractDAO.map inp = Ok out ->
  exists data rows,
    dict_lookup inp (VStr "data") = Some data /\
    py_iter data = Ok rows /\
    length out = length rows.
Proof.
  unfold AbstractDAO.map, dict_getitem. cbn [hashable].
  destruct (dict_lookup inp (VStr "data")) as [ data | ] eqn:Hdata; cbn [rbind];
    [ | discriminate ].
  destruct (py_iter data) as [ rows | e ] eqn:Hrows; cbn [rbind]; [ | discriminate ].
  intros H. exists data, rows.
  split; [ reflexivity | ]. split; [ exact Hrows | ].
  apply (map_loop_length inp rows [] out H).
Qed.

Lemma map_one_mapping_per_row_witness :
  exists data rows,
    dict_lookup [(VStr "columns", VList [VStr "id"; VStr "name"]);
                 (VStr "data", VList Mem.rows_of_t)] (VStr "data") = Some data /\
    py_iter data = Ok rows /\
    length [[(VStr "id", VInt 1); (VStr "name", VStr "a")];
            [(VStr "id", VInt 2); (VStr "name", VStr "b")]] = length rows.
Proof.
  apply (map_one_mapping_per_row
           [(VStr "columns", VList [VStr "id"; VStr "name"]);
            (VStr "data", VList Mem.rows_of_t)]).
  reflexivity.
Defined.

(** X2: the ["columns"] entry is read once per row.  On an input without
    it [map] returns the empty list when there are no rows and raises
    [KeyError('columns')] as soon as there is one. *)
Theorem map_without_columns (inp : pydict) (data : value) (rows : list value) :
  dict_lookup inp (VStr "columns") = None ->
  dict_lookup inp (VStr "data") = Some data ->
  py_iter data = Ok rows ->
  AbstractDAO.map inp =
  match rows with
  | [] => Ok []
  | _ :: _ => Exc (KeyError (VStr "columns"))
  end.
Proof.
  intros Hcol Hdata Hrows.
  unfold AbstractDAO.map, dict_getitem. cbn [hashable].
  rewrite Hdata. cbn [rbind]. rewrite Hrows. cbn [rbind].
  destruct rows as [ | r rows ]; cbn [AbstractDAO.for_each]; [ reflexivity | ].
  rewrite Hcol. reflexivity.
Qed.

(** What [select] returns for a query without rows, and for one row. *)
Lemma map_without_columns_witness :
  AbstractDAO.map [(VStr "column_names", VList [VStr "id"]); (VStr "data", VList [])]
    = Ok [] /\
  AbstractDAO.map [(VStr "column_names", VList [VStr "id"]);
                   (VStr "data", VList [VTuple [VInt 1]])]
    = Exc (KeyError (VStr "columns")).
Proof.
  split.
  - apply (map_without_columns
             [(VStr "column_names", VList [VStr "id"]); (VStr "data", VList [])]
             (VList []) []); reflexivity.
  - apply (map_without_columns
             [(VStr "column_names", VList [VStr "id"]);
              (VStr "data", VList [VTuple [VInt 1]])]
             (VList [VTuple [VInt 1]]) [VTuple [VInt 1]]); reflexivity.
Defined.

(** ** Dictionaries filled from arbitrary pairs *)

Lemma filter_filter_and {A : Type} (f g : A -> bool) (l : list A) :
  filter f (filter g l) = filter (fun x => g x && f x) l.
Proof.
  induction l as [ | x l IH ]; simpl; [ reflexivity | ].
  destruct (g x); simpl; [ destruct (f x); rewrite IH; reflexivity | exact IH ].
Qed.

Lemma dict_keys_store (V : Type) (d : dict V) (k : value) (v : V) :
  dict_keys (dict_store d k v) =
  if existsb (value_eqb k) (dict_keys d) then dict_keys d else dict_keys d ++ [k].
Proof.
  unfold dict_keys. induction d as [ | [k0 v0] d IH ]; simpl; [ reflexivity | ].
  rewrite (value_eqb_sym k k0).
  destruct (value_eqb k0 k); simpl; [ reflexivity | ].
  rewrite IH. destruct (existsb (value_eqb k) (List.map fst d)); reflexivity.
Qed.

Lemma dict_fill_lookup (pairs : list (value * value)) :
  forall (d d' : pydict),
    dict_fill d pairs = Ok d' ->
    forall k, dict_lookup d' k =
              match last_value k pairs with
              | Some v => Some v
              | None => dict_lookup d k
              end.
Proof.
  induction pairs as [ | [k0 v0] pairs IH ]; intros d d' H k; simpl in *.
  - injection H as <-. reflexivity.
  - unfold dict_setitem in H. destruct (hashable k0); cbn [rbind] in H; [ | discriminate ].
    rewrite (IH _ _ H k).
    destruct (last_value k pairs) as [ v | ]; [ reflexivity | ].
    destruct (value_eqb k0 k) eqn:E.
    + apply value_eqb_eq in E. subst. apply dict_lookup_store_same.
    + apply dict_lookup_store_other. intros ->. rewrite value_eqb_refl in E. discriminate.
Qed.

Lemma dict_fill_keys (pairs : list (value * value)) :
  forall (d d' : pydict),
    dict_fill d pairs = Ok d' ->
    dict_keys d' =
    dict_keys d ++ filter (fun k => negb (existsb (value_eqb k) (dict_keys d)))
                          (first_seen (List.map fst pairs)).
Proof.
  induction pairs as [ | [k0 v0] pairs IH ]; intros d d' H; simpl in *.
  - injection H as <-. rewrite app_nil_r. reflexivity.
  - unfold dict_setitem in H. destruct (hashable k0); cbn [rbind] in H; [ | discriminate ].
    rewrite (IH _ _ H), dict_keys_store.
    destruct (existsb (value_eqb k0) (dict_keys d)) eqn:E; cbn [negb].
    + f_equal. rewrite filter_filter_and. apply filter_ext. intros x.
      destruct (value_eqb k0 x) eqn:Ex; [ | reflexivity ].
      apply value_eqb_eq in Ex. subst x. rewrite E. reflexivity.
    + rewrite <- app_assoc. cbn [app]. do 2 f_equal.
      rewrite filter_filter_and. apply filter_ext. intros x.
      rewrite existsb_app. cbn [existsb]. rewrite orb_false_r, (value_eqb_sym x k0).
      destruct (value_eqb k0 x), (existsb (value_eqb x) (dict_keys d)); reflexivity.
Qed.

Lemma dict_fill_hashable (pairs : list (value * value)) :
  forall d : pydict,
    forallb hashable (List.map fst pairs) = true ->
    exists d', dict_fill d pairs = Ok d'.
Proof.
  induction pairs as [ | [k0 v0] pairs IH ]; intros d H; simpl in *.
  - exists d. reflexivity.
  - apply andb_true_iff in H as [Hk Hrest].
    unfold dict_setitem. rewrite Hk. cbn [rbind]. apply IH. exact Hrest.
Qed.

Lemma dict_fill_dict_of (pairs : list (value * value)) (m : pydict) :
  dict_fill [] pairs = Ok m -> dict_of pairs m.
Proof.
  intros H. split.
  - rewrite (dict_fill_keys pairs [] m H). cbn [dict_keys List.map app existsb negb].
    apply filter_true.
  - intros k. rewrite (dict_fill_lookup pairs [] m H k).
    destruct (last_value k pairs); reflexivity.
Qed.

Lemma combine_keys_hashable (cols vs : list value) :
  forallb hashable cols = true ->
  forallb hashable (List.map fst (combine cols vs)) = true.
Proof.
  revert vs. induction cols as [ | c cols IH ]; intros [ | v vs ] H; simpl in *;
    try reflexivity.
  apply andb_true_iff in H as [Hc Hrest]. rewrite Hc. apply IH. exact Hrest.
Qed.

(** The loop of [map] on rows that can all be iterated, with hashable
    column keys. *)
Lemma map_loop_general (inp : pydict) (columns : value) (cols : list value) :
  dict_lookup inp (VStr "columns") = Some columns ->
  py_iter columns = Ok cols ->
  forallb hashable cols = true ->
  forall (rows : list value) (cells : list (list value)) (arr : list pydict),
    Forall2 (fun r vs => py_iter r = Ok vs) rows cells ->
    exists outs,
      AbstractDAO.for_each
        (fun data arr =>
           rbind (dict_getitem inp (VStr "columns")) (fun columns =>
           rbind (py_zip columns data) (fun pairs =>
           rbind (dict_fill [] pairs) (fun row => Ok (arr ++ [row])))))
        rows arr = Ok (arr ++ outs) /\
      Forall2 (fun m vs => dict_of (combine cols vs) m) outs cells.
Proof.
  intros Hcol Hiter Hhash rows cells arr Hrows. revert arr.
  induction Hrows as [ | r vs rows cells Hr _ IH ]; intros arr.
  - exists []. split; [ rewrite app_nil_r; reflexivity | constructor ].
  - destruct (dict_fill_hashable (combine cols vs) []
                (combine_keys_hashable cols vs Hhash)) as (m & Hm).
    destruct (IH (arr ++ [m])) as (outs & Hloop & Houts).
    exists (m :: outs). split.
    + cbn [AbstractDAO.for_each].
      unfold dict_getitem at 1. cbn [hashable]. rewrite Hcol. cbn [rbind].
      unfold py_zip. rewrite Hiter, Hr. cbn [rbind]. rewrite Hm. cbn [rbind].
      rewrite <- app_assoc in Hloop. exact Hloop.
    + constructor; [ apply dict_fill_dict_of; exact Hm | exact Houts ].
Qed.

(** X3: on an input whose ["columns"] entry iterates to hashable keys and
    whose ["data"] entry iterates to rows that can be iterated, [map]
    always succeeds, and the i-th mapping is [dict(zip(columns, row))]: its
    keys are the zipped column keys in the order of their first
    occurrence, each bound to the value at the last position where that
    key occurs.  No row length is checked. *)
Theorem map_zips_every_row (inp : pydict) (columns data : value)
  (cols rows : list value) (cells : list (list value)) :
  dict_lookup inp (VStr "columns") = Some columns ->
  py_iter columns = Ok cols ->
  forallb hashable cols = true ->
  dict_lookup inp (VStr "data") = Some data ->
  py_iter data = Ok rows ->
  Forall2 (fun r vs => py_iter r = Ok vs) rows cells ->
  exists out,
    AbstractDAO.map inp = Ok out /\
    Forall2 (fun m vs => dict_of (combine cols vs) m) out cells.
Proof.
  intros Hcol Hiter Hhash Hdata Hrows Hcells.
  destruct (map_loop_general inp columns cols Hcol Hiter Hhash rows cells [] Hcells)
    as (outs & Hloop & Houts).
  exists outs. split; [ | exact Houts ].
  unfold AbstractDAO.map, dict_getitem. cbn [hashable].
  rewrite Hdata. cbn [rbind]. rewrite Hrows. cbn [rbind]. exact Hloop.
Qed.

(** Columns [id], [id], [name] against a row of three and a row of one. *)
Lemma map_zips_every_row_witness :
  exists out,
    AbstractDAO.map
      [(VStr "columns", VList [VStr "id"; VStr "id"; VStr "name"]);
       (VStr "data", VList [VTuple [VInt 1; VInt 2; VStr "a"]; VList [VInt 3]])]
    = Ok out /\
    Forall2 (fun m vs => dict_of (combine [VStr "id"; VStr "id"; VStr "name"] vs) m)
            out [[VInt 1; VInt 2; VStr "a"]; [VInt 3]].
Proof.
  apply (map_zips_every_row
           [(VStr "columns", VList [VStr "id"; VStr "id"; VStr "name"]);
            (VStr "data", VList [VTuple [VInt 1; VInt 2; VStr "a"]; VList [VInt 3]])]
           (VList [VStr "id"; VStr "id"; VStr "name"])
           (VList [VTuple [VInt 1; VInt 2; VStr "a"]; VList [VInt 3]])
           [VStr "id"; VStr "id"; VStr "name"]
           [VTuple [VInt 1; VInt 2; VStr "a"]; VList [VInt 3]]);
    try reflexivity.
  repeat constructor.
Defined.

(** ** Rows zipped against distinct names *)

Lemma first_seen_NoDup_id (ks : list value) : NoDup ks -> first_seen ks = ks.
Proof.
  induction 1 as [ | k ks Hnotin _ IH ]; simpl; [ reflexivity | ].
  rewrite IH. f_equal. apply forallb_filter_id, forallb_forall.
  intros x Hx. rewrite value_eqb_neq; [ reflexivity | ].
  intros ->. contradiction.
Qed.

Lemma NoDup_VStr (names : list string) : NoDup names -> NoDup (List.map VStr names).
Proof.
  induction 1 as [ | n names Hnotin _ IH ]; simpl; constructor; [ | exact IH ].
  rewrite in_map_iff. intros (n' & [= ->] & Hin). contradiction.
Qed.

Lemma combine_keys_firstn {A B : Type} (ks : list A) (vs : list B) :
  List.map fst (combine ks vs) = firstn (length vs) ks.
Proof.
  revert vs. induction ks as [ | k ks IH ]; intros [ | v vs ]; simpl;
    try reflexivity.
  rewrite IH. reflexivity.
Qed.

Lemma NoDup_firstn_of {A : Type} (n : nat) (l : list A) :
  NoDup l -> NoDup (firstn n l).
Proof.
  intros H. rewrite <- (firstn_skipn n l) in H.
  apply NoDup_app_remove_r in H. exact H.
Qed.

Lemma last_value_absent (k : value) (pairs : list (value * value)) :
  ~ In k (List.map fst pairs) -> last_value k pairs = None.
Proof.
  induction pairs as [ | [k0 v0] pairs IH ]; simpl; intros Hnotin; [ reflexivity | ].
  rewrite IH by tauto.
  rewrite value_eqb_neq; [ reflexivity | ]. intros ->. tauto.
Qed.

Lemma last_value_combine_distinct (names : list string) :
  forall (vs : list value) (j : nat) (name : string),
    NoDup names ->
    nth_error names j = Some name ->
    last_value (VStr name) (combine (List.map VStr names) vs) = nth_error vs j.
Proof.
  induction names as [ | n names IH ]; intros vs j name Hnd Hj.
  - destruct j; discriminate.
  - inversion Hnd as [ | ? ? Hnotin Hnd' ]; subst.
    destruct vs as [ | v vs ]; [ destruct j; reflexivity | ].
    cbn [List.map combine last_value].
    destruct j as [ | j ]; cbn [nth_error] in *.
    + injection Hj as ->.
      rewrite last_value_absent.
      * rewrite value_eqb_refl. reflexivity.
      * rewrite combine_keys_firstn, firstn_map, in_map_iff.
        intros (n' & [= ->] & Hin). apply Hnotin.
        rewrite <- (firstn_skipn (length vs) names). apply in_or_app. left. exact Hin.
    + rewrite (IH vs j name Hnd' Hj).
      destruct (nth_error vs j) as [ x | ]; [ reflexivity | ].
      rewrite value_eqb_neq; [ reflexivity | ].
      intros [= ->]. apply Hnotin. eapply nth_error_In. exact Hj.
Qed.

(** X4: with pairwise distinct column names [map] accepts rows of any
    length.  The mapping of a row has the first [len(row)] column names as
    keys (all of them when the row is longer), and the name at position [j]
    is bound to the row's value at position [j] when the row has one and is
    absent otherwise. *)
Theorem map_row_length_unchecked (inp : pydict) (columns data : value)
  (names : list string) (rows : list value) (cells : list (list value)) :
  dict_lookup inp (VStr "columns") = Some columns ->
  py_iter columns = Ok (List.map VStr names) ->
  NoDup names ->
  dict_lookup inp (VStr "data") = Some data ->
  py_iter data = Ok rows ->
  Forall2 (fun r vs => py_iter r = Ok vs) rows cells ->
  exists out,
    AbstractDAO.map inp = Ok out /\
    Forall2 (fun m vs =>
               dict_keys m = List.map VStr (firstn (length vs) names) /\
               forall j name, nth_error names j = Some name ->
                              dict_lookup m (VStr name) = nth_error vs j)
            out cells.
Proof.
  intros Hcol Hiter Hnd Hdata Hrows Hcells.
  assert (Hhash : forallb hashable (List.map VStr names) = true).
  { apply forallb_forall. intros x Hx.
    apply in_map_iff in Hx as (n & <- & _). reflexivity. }
  destruct (map_loop_general inp columns (List.map VStr names) Hcol Hiter Hhash
              rows cells [] Hcells) as (outs & Hloop & Houts).
  exists outs. split.
  - unfold AbstractDAO.map, dict_getitem. cbn [hashable].
    rewrite Hdata. cbn [rbind]. rewrite Hrows. cbn [rbind]. exact Hloop.
  - clear Hloop Hcells. induction Houts as [ | m vs outs cells [Hkeys Hlook] _ IH ];
      constructor; [ | exact IH ].
    split.
    + rewrite Hkeys, combine_keys_firstn, first_seen_NoDup_id, firstn_map;
        [ reflexivity | ].
      apply NoDup_firstn_of, NoDup_VStr, Hnd.
    + intros j name Hj. rewrite Hlook.
      apply last_value_combine_distinct; assumption.
Qed.

(** Columns [id], [name] against a row of one value and a row of three. *)
Lemma map_row_length_unchecked_witness :
  exists out,
    AbstractDAO.map
      [(VStr "columns", VList [VStr "id"; VStr "name"]);
       (VStr "data", VList [VTuple [VInt 1]; VTuple [VInt 2; VStr "b"; VStr "x"]])]
    = Ok out /\
    Forall2 (fun m vs =>
               dict_keys m = List.map VStr (firstn (length vs) ["id"; "name"]) /\
               forall j name, nth_error ["id"; "name"] j = Some name ->
                              dict_lookup m (VStr name) = nth_error vs j)
            out [[VInt 1]; [VInt 2; VStr "b"; VStr "x"]].
Proof.
  apply (map_row_length_unchecked
           [(VStr "columns", VList [VStr "id"; VStr "name"]);
            (VStr "data", VList [VTuple [VInt 1]; VTuple [VInt 2; VStr "b"; VStr "x"]])]
           (VList [VStr "id"; VStr "name"])
           (VList [VTuple [VInt 1]; VTuple [VInt 2; VStr "b"; VStr "x"]])
           ["id"; "name"]
           [VTuple [VInt 1]; VTuple [VInt 2; VStr "b"; VStr "x"]]);
    try reflexivity.
  - repeat constructor; simpl; intuition discriminate.
  - repeat constructor.
Defined.

(** ** Where [hash_map] fails *)

Lemma group_by_spec_nil (key_column : string) : group_by_spec key_column [] = [].
Proof. reflexivity. Qed.

(** The loop of [hash_map] up to a row [r] that follows the rows [p]. *)
Lemma hash_loop_reaches (key_column : string) (p rest : list pydict) (r : pydict) :
  keyed key_column p ->
  AbstractDAO.for_each (AbstractDAO.hash_step key_column) (p ++ r :: rest) []
  = rbind (AbstractDAO.hash_step key_column r (group_by_spec key_column p))
          (AbstractDAO.for_each (AbstractDAO.hash_step key_column) rest).
Proof.
  intros Hp. rewrite for_each_app.
  rewrite <- (group_by_spec_nil key_column) at 1.
  rewrite (hash_loop_group key_column p [] Hp). reflexivity.
Qed.

(** X5: [hash_map] raises [KeyError(key_column)] at the first mapped row
    that has no entry under [key_column]; the buckets built so far are
    lost. *)
Theorem hash_map_missing_key (inp : pydict) (key_column : string)
  (p rest : list pydict) (r : pydict) :
  AbstractDAO.map inp = Ok (p ++ r :: rest) ->
  keyed key_column p ->
  dict_lookup r (VStr key_column) = None ->
  AbstractDAO.hash_map inp key_column = Exc (KeyError (VStr key_column)).
Proof.
  intros Hmap Hp Hr. unfold AbstractDAO.hash_map. rewrite Hmap. cbn [rbind].
  rewrite (hash_loop_reaches key_column p rest r Hp).
  unfold AbstractDAO.hash_step, dict_getitem. cbn [hashable]. rewrite Hr. reflexivity.
Qed.

(** Grouping the rows of [t] by a column that the result does not have. *)
Lemma hash_map_missing_key_witness :
  AbstractDAO.hash_map
    [(VStr "columns", VList [VStr "id"; VStr "name"]);
     (VStr "data", VList Mem.rows_of_t)] "code"
  = Exc (KeyError (VStr "code")).
Proof.
  apply (hash_map_missing_key
           [(VStr "columns", VList [VStr "id"; VStr "name"]);
            (VStr "data", VList Mem.rows_of_t)] "code"
           [] [[(VStr "id", VInt 2); (VStr "name", VStr "b")]]
           [(VStr "id", VInt 1); (VStr "name", VStr "a")]).
  - reflexivity.
  - constructor.
  - reflexivity.
Defined.

(** X6: [hash_map] raises [TypeError] at the first mapped row whose value
    under [key_column] is unhashable (a list or a dictionary, or a tuple
    that holds one). *)
Theorem hash_map_unhashable_key (inp : pydict) (key_column : string)
  (p rest : list pydict) (r : pydict) (k : value) :
  AbstractDAO.map inp = Ok (p ++ r :: rest) ->
  keyed key_column p ->
  dict_lookup r (VStr key_column) = Some k ->
  hashable k = false ->
  AbstractDAO.hash_map inp key_column = Exc unhashable.
Proof.
  intros Hmap Hp Hr Hk. unfold AbstractDAO.hash_map. rewrite Hmap. cbn [rbind].
  rewrite (hash_loop_reaches key_column p rest r Hp).
  unfold AbstractDAO.hash_step, dict_getitem, dict_get. cbn [hashable].
  rewrite Hr. cbn [rbind]. rewrite Hk. reflexivity.
Qed.

(** A second row whose [tags] value is a list. *)
Lemma hash_map_unhashable_key_witness :
  AbstractDAO.hash_map
    [(VStr "columns", VList [VStr "id"; VStr "tags"]);
     (VStr "data", VList [VTuple [VInt 1; VStr "x"];
                          VTuple [VInt 2; VList [VStr "y"]]])] "tags"
  = Exc unhashable.
Proof.
  apply (hash_map_unhashable_key
           [(VStr "columns", VList [VStr "id"; VStr "tags"]);
            (VStr "data", VList [VTuple [VInt 1; VStr "x"];
                                 VTuple [VInt 2; VList [VStr "y"]]])] "tags"
           [[(VStr "id", VInt 1); (VStr "tags", VStr "x")]] []
           [(VStr "id", VInt 2); (VStr "tags", VList [VStr "y"])]
           (VList [VStr "y"])).
  - reflexivity.
  - repeat constructor. eexists. split; reflexivity.
  - reflexivity.
  - reflexivity.
Defined.

(** ** Looking rows up in the grouping *)

(** X7: in the mapping that [hash_map] returns, every mapped row is found
    in the bucket stored under its own key value, and a key value that no
    row has is not a key. *)
Theorem hash_map_lookup (inp : pydict) (key_column : string) (arr : list pydict) :
  AbstractDAO.map inp = Ok arr ->
  keyed key_column arr ->
  exists res_,
    AbstractDAO.hash_map inp key_column = Ok res_ /\
    (forall row k, In row arr -> dict_lookup row (VStr key_column) = Some k ->
                   exists bucket, dict_lookup res_ k = Some bucket /\ In row bucket) /\
    (forall k, ~ In k (row_keys key_column arr) -> dict_lookup res_ k = None).
Proof.
  intros Hmap Hkeyed. exists (group_by_spec key_column arr).
  split; [ | split ].
  - unfold AbstractDAO.hash_map. rewrite Hmap. cbn [rbind].
    exact (hash_loop_group key_column arr [] Hkeyed).
  - intros row k Hin Hk. exists (filter (has_key key_column k) arr). split.
    + unfold group_by_spec. rewrite lookup_tabulate, existsb_first_seen.
      replace (existsb (value_eqb k) (row_keys key_column arr)) with true;
        [ reflexivity | ].
      symmetry. apply existsb_eqb_In. eapply row_keys_In; eassumption.
    + apply filter_In. split; [ exact Hin | ].
      unfold has_key. rewrite Hk. apply value_eqb_refl.
  - intros k Hnotin. unfold group_by_spec.
    rewrite lookup_tabulate, existsb_first_seen.
    destruct (existsb (value_eqb k) (row_keys key_column arr)) eqn:E;
      [ | reflexivity ].
    apply existsb_eqb_In in E. contradiction.
Qed.

Lemma hash_map_lookup_witness :
  exists res_,
    AbstractDAO.hash_map
      [(VStr "columns", VList [VStr "id"; VStr "name"]);
       (VStr "data", VList Mem.rows_of_t)] "id" = Ok res_ /\
    (forall row k,
        In row [[(VStr "id", VInt 1); (VStr "name", VStr "a")];
                [(VStr "id", VInt 2); (VStr "name", VStr "b")]] ->
        dict_lookup row (VStr "id") = Some k ->
        exists bucket, dict_lookup res_ k = Some bucket /\ In row bucket) /\
    (forall k,
        ~ In k (row_keys "id" [[(VStr "id", VInt 1); (VStr "name", VStr "a")];
                               [(VStr "id", VInt 2); (VStr "name", VStr "b")]]) ->
        dict_lookup res_ k = None).
Proof.
  apply (hash_map_lookup
           [(VStr "columns", VList [VStr "id"; VStr "name"]);
            (VStr "data", VList Mem.rows_of_t)] "id").
  - reflexivity.
  - repeat constructor; eexists; split; reflexivity.
Defined.

(** ** Grouping by a column with distinct values *)

Lemma singleton_buckets (key_column : string) (arr : list pydict) :
  keyed key_column arr ->
  NoDup (row_keys key_column arr) ->
  List.map (fun k => filter (has_key key_column k) arr) (row_keys key_column arr)
  = List.map (fun row => [row]) arr.
Proof.
  induction arr as [ | r arr IH ]; intros Hkeyed Hnd; [ reflexivity | ].
  inversion Hkeyed as [ | ? ? (k & Hk & _) Hkeyed' ]; subst.
  unfold row_keys in *. cbn [flat_map] in *. rewrite Hk in *. cbn [app] in *.
  inversion Hnd as [ | ? ? Hnotin Hnd' ]; subst.
  cbn [List.map]. f_equal.
  - cbn [filter]. unfold has_key at 1. rewrite Hk, value_eqb_refl. f_equal.
    apply filter_no_key.
    destruct (existsb (value_eqb k) (row_keys key_column arr)) eqn:E;
      [ | reflexivity ].
    apply existsb_eqb_In in E. contradiction.
  - rewrite <- (IH Hkeyed' Hnd'). apply map_ext_in. intros k' Hk'.
    cbn [filter]. replace (has_key key_column k' r) with false; [ reflexivity | ].
    unfold has_key. rewrite Hk. symmetry. apply value_eqb_neq.
    intros ->. contradiction.
Qed.

(** X8: when the values under [key_column] are pairwise different (a
    primary key), [hash_map] returns one bucket per row, in row order: its
    keys are the rows' key values, each bucket holds exactly its row, and
    the buckets concatenated are [map]'s output. *)
Theorem hash_map_distinct_keys (inp : pydict) (key_column : string)
  (arr : list pydict) :
  AbstractDAO.map inp = Ok arr ->
  keyed key_column arr ->
  NoDup (row_keys key_column arr) ->
  exists res_,
    AbstractDAO.hash_map inp key_column = Ok res_ /\
    dict_keys res_ = row_keys key_column arr /\
    List.map snd res_ = List.map (fun row => [row]) arr /\
    concat (List.map snd res_) = arr.
Proof.
  intros Hmap Hkeyed Hnd. exists (group_by_spec key_column arr).
  assert (Hbuckets : List.map snd (group_by_spec key_column arr)
                     = List.map (fun row => [row]) arr).
  { unfold group_by_spec. rewrite map_map. cbn [snd].
    rewrite (first_seen_NoDup_id _ Hnd). apply singleton_buckets; assumption. }
  split; [ | split; [ | split ] ].
  - unfold AbstractDAO.hash_map. rewrite Hmap. cbn [rbind].
    exact (hash_loop_group key_column arr [] Hkeyed).
  - rewrite group_by_spec_keys. apply first_seen_NoDup_id. exact Hnd.
  - exact Hbuckets.
  - rewrite Hbuckets. clear. induction arr as [ | r arr IH ]; simpl;
      [ reflexivity | rewrite IH; reflexivity ].
Qed.

Lemma hash_map_distinct_keys_witness :
  exists res_,
    AbstractDAO.hash_map
      [(VStr "columns", VList [VStr "id"; VStr "name"]);
       (VStr "data", VList Mem.rows_of_t)] "id" = Ok res_ /\
    dict_keys res_ = [VInt 1; VInt 2] /\
    List.map snd res_ = [[[(VStr "id", VInt 1); (VStr "name", VStr "a")]];
                         [[(VStr "id", VInt 2); (VStr "name", VStr "b")]]] /\
    concat (List.map snd res_) = [[(VStr "id", VInt 1); (VStr "name", VStr "a")];
                                  [(VStr "id", VInt 2); (VStr "name", VStr "b")]].
Proof.
  apply (hash_map_distinct_keys
           [(VStr "columns", VList [VStr "id"; VStr "name"]);
            (VStr "data", VList Mem.rows_of_t)] "id"
           [[(VStr "id", VInt 1); (VStr "name", VStr "a")];
            [(VStr "id", VInt 2); (VStr "name", VStr "b")]]).
  - reflexivity.
  - repeat constructor; eexists; split; reflexivity.
  - repeat constructor; simpl; intuition discriminate.
Defined.

(* ===================================================================== *)
(** * Further properties of SqlSession *)
(* ===================================================================== *)

Section QueryFacts.
Context {L : Type} (tk : Toolkit L).

(** A [try] suite that ends in [return], under the clauses of [select]. *)
Lemma run_query_outcome {R : Type} (m : M L R) (w : World L) :
  run_body (try_ (return_ (fun _ : unit => m)) SqlSession.select_handlers pass) tt w
  = (match fst (m w) with
     | Ok d => Ok (Some d)
     | Exc e => Exc (select_error e)
     end, snd (m w)).
Proof.
  unfold run_body, try_, return_, pass, SqlSession.select_handlers.
  destruct (m w) as [[ d | e ] w']; cbn; [ reflexivity | ].
  destruct e; reflexivity.
Qed.

Lemma select_outcome (self : SqlSession_obj) (sql : string) (params : pydict)
  (w : World L) :
  SqlSession.select tk self sql params w
  = (match fst (query_body tk self sql params CallFetchall (result_fetchall tk) w) with
     | Ok d => Ok (Some d)
     | Exc e => Exc (select_error e)
     end,
     snd (query_body tk self sql params CallFetchall (result_fetchall tk) w)).
Proof. apply (run_query_outcome (query_body tk self sql params _ _)). Qed.

Lemma select_one_outcome (self : SqlSession_obj) (sql : string) (params : pydict)
  (w : World L) :
  SqlSession.select_one tk self sql params w
  = (match fst (query_body tk self sql params CallFetchone (result_fetchone tk) w) with
     | Ok d => Ok (Some d)
     | Exc e => Exc (select_error e)
     end,
     snd (query_body tk self sql params CallFetchone (result_fetchone tk) w)).
Proof. apply (run_query_outcome (query_body tk self sql params _ _)). Qed.

Lemma query_body_shape (self : SqlSession_obj) (sql : string) (params : pydict)
  (fetch_event : CursorResult -> Event)
  (fetch : CursorResult -> L -> res value * L) (w : World L) (d : pydict) :
  fst (query_body tk self sql params fetch_event fetch w) = Ok d ->
  exists names data, d = [(VStr "column_names", VList names); (VStr "data", data)].
Proof.
  unfold query_body, SqlSession.column_names_of, bind, attr, ret, raise, call, lift.
  destruct (_connection self) as [ c | ]; [ | discriminate ].
  destruct (conn_execute tk c sql params (lib w)) as [[ r | e ] l1]; [ | discriminate ].
  cbv beta iota zeta delta [lib log].
  destruct (cursor_description tk r l1) as [ description | e ]; [ | discriminate ].
  destruct (py_iter description) as [ descs | e ]; [ | discriminate ].
  destruct (comprehension py_index0 descs) as [ names | e ]; [ | discriminate ].
  destruct (fetch r l1) as [[ data | e ] l2]; [ | discriminate ].
  cbn. intros [= <-]. exists names, data. reflexivity.
Qed.

Lemma select_error_not_engine (e : exn) : is_SQLAlchemyError (select_error e) = false.
Proof. destruct e; reflexivity. Qed.
End QueryFacts.

(** X9: [select] and [select_one] never return [None] and never let an
    error of the toolkit's own class out.  They return a mapping with
    exactly the entries ['column_names'] (a list) and ['data'], in this
    order, or they raise something that is not an [SQLAlchemyError]. *)
Theorem select_returns_shape_or_raises {L : Type} (tk : Toolkit L)
  (self : SqlSession_obj) (sql : string) (params : pydict) (w : World L) :
  match fst (SqlSession.select tk self sql params w) with
  | Ok None => False
  | Ok (Some d) =>
      exists names data, d = [(VStr "column_names", VList names); (VStr "data", data)]
  | Exc e => is_SQLAlchemyError e = false
  end /\
  match fst (SqlSession.select_one tk self sql params w) with
  | Ok None => False
  | Ok (Some d) =>
      exists names data, d = [(VStr "column_names", VList names); (VStr "data", data)]
  | Exc e => is_SQLAlchemyError e = false
  end.
Proof.
  rewrite select_outcome, select_one_outcome. cbn [fst]. split.
  - destruct (fst (query_body tk self sql params CallFetchall (result_fetchall tk) w))
      as [ d | e ] eqn:E;
      [ eapply query_body_shape; exact E | apply select_error_not_engine ].
  - destruct (fst (query_body tk self sql params CallFetchone (result_fetchone tk) w))
      as [ d | e ] eqn:E;
      [ eapply query_body_shape; exact E | apply select_error_not_engine ].
Qed.

(** X10: when the engine's [execute] on the connection raises, [select]
    and [select_one] stop there (nothing is fetched).  An error of the
    toolkit's class leaves as a [DataSourceError] whose message is
    ["database select Error: "] followed by the error's text and which
    carries the error and its code; any other exception leaves
    unchanged. *)
Theorem select_execute_failure {L : Type} (tk : Toolkit L)
  (self : SqlSession_obj) (c : Connection) (sql : string) (params : pydict)
  (w : World L) (e : exn) (l1 : L) :
  _connection self = Some c ->
  conn_execute tk c sql params (lib w) = (Exc e, l1) ->
  let w1 := {| lib := l1; log := log w ++ [CallConnExecute c sql params] |} in
  SqlSession.select tk self sql params w = (Exc (select_error e), w1) /\
  SqlSession.select_one tk self sql params w = (Exc (select_error e), w1).
Proof.
  intros Hc He. cbv zeta. rewrite select_outcome, select_one_outcome.
  unfold query_body, bind, attr, ret, call. rewrite Hc, He. split; reflexivity.
Qed.

(** A statement on a missing table, on the open in-memory session. *)
Lemma select_execute_failure_witness :
  SqlSession.select Mem.toolkit Run.s1 Mem.delete_u [] Run.w_open
  = (Exc (DataSourceError
            "database select Error: (OperationalError) no such table"
            (Some (ObjExn Mem.no_such_table)) (Some (ObjValue (VStr "e3q8")))),
     {| lib := lib Run.w_open;
        log := log Run.w_open ++ [CallConnExecute 1%nat Mem.delete_u []] |}).
Proof.
  exact (proj1 (select_execute_failure Mem.toolkit Run.s1 1%nat Mem.delete_u []
                  Run.w_open Mem.no_such_table (lib Run.w_open) eq_refl eq_refl)).
Defined.

(** X11: on a session without connection and ORM session (one on which
    [init] was not called) no data operation reaches the engine: [select]
    and [select_one] raise [AttributeError], while [insert] and [execute]
    return [False] and raise nothing. *)
Theorem unbound_session_operations {L : Type} (tk : Toolkit L)
  (self : SqlSession_obj) (sql : string) (params : pydict) (data_list : value)
  (w : World L) :
  _connection self = None ->
  _session self = None ->
  SqlSession.select tk self sql params w
    = (Exc (AttributeError "'NoneType' object has no attribute 'execute'"), w) /\
  SqlSession.select_one tk self sql params w
    = (Exc (AttributeError "'NoneType' object has no attribute 'execute'"), w) /\
  SqlSession.insert tk self sql data_list w = (Ok (Some false), w) /\
  SqlSession.execute tk self sql params w = (Ok (Some false), w).
Proof.
  intros Hc Hs. rewrite select_outcome, select_one_outcome.
  unfold SqlSession.insert, SqlSession.execute. rewrite !write_outcome.
  unfold query_body, bind, attr, raise. rewrite Hc, Hs. repeat split.
Qed.

Lemma unbound_session_operations_witness :
  SqlSession.select Mem.toolkit SqlSession.new Mem.select_t [] Mem.world0
    = (Exc (AttributeError "'NoneType' object has no attribute 'execute'"), Mem.world0) /\
  SqlSession.insert Mem.toolkit SqlSession.new Mem.insert_t (VList []) Mem.world0
    = (Ok (Some false), Mem.world0).
Proof.
  destruct (unbound_session_operations Mem.toolkit SqlSession.new Mem.select_t []
              (VList []) Mem.world0 eq_refl eq_refl) as (Hsel & _ & _ & _).
  destruct (unbound_session_operations Mem.toolkit SqlSession.new Mem.insert_t []
              (VList []) Mem.world0 eq_refl eq_refl) as (_ & _ & Hins & _).
  split; [ exact Hsel | exact Hins ].
Defined.

(** X12: [insert] and [execute] ask the ORM session to execute the
    statement, ask it to commit only when that succeeded, never ask for a
    rollback, and return [True] exactly when both calls succeeded. *)
Theorem write_calls_and_result {L : Type} (tk : Toolkit L)
  (self : SqlSession_obj) (sql : string) (data_list : value) (params : pydict)
  (w : World L) :
  let outcome data :=
    match _session self with
    | None => (Ok (Some false), w)
    | Some s =>
        match session_execute tk s sql data (lib w) with
        | (Exc _, l1) =>
            (Ok (Some false),
             {| lib := l1; log := log w ++ [CallSessionExecute s sql data] |})
        | (Ok _, l1) =>
            (Ok (Some match fst (session_commit tk s l1) with
                      | Ok _ => true
                      | Exc _ => false
                      end),
             {| lib := snd (session_commit tk s l1);
                log := log w ++ [CallSessionExecute s sql data; CallSessionCommit s] |})
        end
    end in
  SqlSession.insert tk self sql data_list w = outcome data_list /\
  SqlSession.execute tk self sql params w = outcome (VDict params).
Proof.
  cbv zeta. unfold SqlSession.insert, SqlSession.execute. rewrite !write_outcome.
  cbv beta iota zeta delta [SqlSession.commit bind attr ret raise call fst snd].
  destruct (_session self) as [ s | ]; [ | split; reflexivity ].
  split.
  - destruct (session_execute tk s sql data_list (lib w)) as [[ [] | e ] l1];
      [ | reflexivity ].
    cbv beta iota zeta delta [lib log].
    destruct (session_commit tk s l1) as [[ [] | e ] l2];
      rewrite <- app_assoc; reflexivity.
  - destruct (session_execute tk s sql (VDict params) (lib w)) as [[ [] | e ] l1];
      [ | reflexivity ].
    cbv beta iota zeta delta [lib log].
    destruct (session_commit tk s l1) as [[ [] | e ] l2];
      rewrite <- app_assoc; reflexivity.
Qed.

(** X13: [close] closes the ORM session first and the connection only if
    that succeeded: when the ORM session's [close] raises, the exception
    leaves [close] unchanged and the connection is not closed. *)
Theorem close_session_then_connection {L : Type} (tk : Toolkit L)
  (self : SqlSession_obj) (s : OrmSession) (c : Connection) (w : World L) :
  _session self = Some s ->
  _connection self = Some c ->
  SqlSession.close tk self w =
  match session_close tk s (lib w) with
  | (Exc e, l1) => (Exc e, {| lib := l1; log := log w ++ [CallSessionClose s] |})
  | (Ok _, l1) =>
      (fst (conn_close tk c l1),
       {| lib := snd (conn_close tk c l1);
          log := log w ++ [CallSessionClose s; CallConnClose c] |})
  end.
Proof.
  intros Hs Hc.
  unfold SqlSession.close, try_except, bind, attr, ret, raise, call.
  rewrite Hs, Hc.
  destruct (session_close tk s (lib w)) as [[ [] | e ] l1]; [ | reflexivity ].
  cbv beta iota zeta delta [lib log].
  destruct (conn_close tk c l1) as [[ [] | e ] l2]; rewrite <- app_assoc; reflexivity.
Qed.

Lemma close_session_then_connection_witness :
  SqlSession.close Mem.toolkit Run.s1 Run.w_open
  = (Ok tt,
     {| lib := lib Run.w_closed;
        log := log Run.w_open ++ [CallSessionClose 1%nat; CallConnClose 1%nat] |}).
Proof.
  exact (close_session_then_connection Mem.toolkit Run.s1 1%nat 1%nat Run.w_open
           eq_refl eq_refl).
Defined.

(* ===================================================================== *)
(** * Further properties of DataSource *)
(* ===================================================================== *)

(** What [get_session] does on a data source whose engine is bound. *)
Lemma get_session_equation {L : Type} (tk : Toolkit L)
  (self : DataSource_obj) (e : Engine) (w : World L) :
  _engine self = Some e ->
  DataSource.get_session tk self w =
  match engine_connect tk e (lib w) with
  | (Exc x, l1) => (Exc x, {| lib := l1; log := log w ++ [CallConnect e] |})
  | (Ok c0, l1) =>
      match conn_execution_options tk c0 false l1 with
      | (Exc x, l2) =>
          (Exc x, {| lib := l2;
                     log := log w ++ [CallConnect e; CallExecutionOptions c0 false] |})
      | (Ok c, l2) =>
          match orm_session tk c l2 with
          | (Exc x, l3) =>
              (Exc x, {| lib := l3;
                         log := log w ++ [CallConnect e; CallExecutionOptions c0 false;
                                          CallOrmSession c] |})
          | (Ok s, l3) =>
              (Ok {| _data_source := Some self;
                     _connection := Some c;
                     _session := Some s |},
               {| lib := l3;
                  log := log w ++ [CallConnect e; CallExecutionOptions c0 false;
                                   CallOrmSession c] |})
          end
      end
  end.
Proof.
  intros He.
  assert (Hinit : DataSource.is_initialized self = true).
  { unfold DataSource.is_initialized. rewrite He. reflexivity. }
  unfold DataSource.get_session. rewrite requires_init_passes by exact Hinit.
  unfold DataSource.get_session_body, SqlSession.init, bind, attr, ret, raise, call.
  rewrite He. cbv beta iota.
  destruct (engine_connect tk e (lib w)) as [[ c0 | x ] l1]; [ | reflexivity ].
  cbv beta iota zeta delta [lib log].
  destruct (conn_execution_options tk c0 false l1) as [[ c | x ] l2];
    [ | rewrite <- app_assoc; reflexivity ].
  destruct (orm_session tk c l2) as [[ s | x ] l3];
    cbn; rewrite <- !app_assoc; reflexivity.
Qed.

(** X14: on an initialized data source [get_session] asks the engine for
    a connection, sets [autocommit=False] on it and opens an ORM session
    on the connection that this returned, in this order.  The first
    of the three calls that raises ends [get_session] with its exception
    unchanged; a connection obtained before is not closed.  When all
    succeed the session returned is bound to this data source, that
    connection and that ORM session. *)
Theorem get_session_calls_and_result {L : Type} (tk : Toolkit L)
  (self : DataSource_obj) (e : Engine) (w : World L) :
  _engine self = Some e ->
  DataSource.get_session tk self w =
  match engine_connect tk e (lib w) with
  | (Exc x, l1) => (Exc x, {| lib := l1; log := log w ++ [CallConnect e] |})
  | (Ok c0, l1) =>
      match conn_execution_options tk c0 false l1 with
      | (Exc x, l2) =>
          (Exc x, {| lib := l2;
                     log := log w ++ [CallConnect e; CallExecutionOptions c0 false] |})
      | (Ok c, l2) =>
          match orm_session tk c l2 with
          | (Exc x, l3) =>
              (Exc x, {| lib := l3;
                         log := log w ++ [CallConnect e; CallExecutionOptions c0 false;
                                          CallOrmSession c] |})
          | (Ok s, l3) =>
              (Ok {| _data_source := Some self;
                     _connection := Some c;
                     _session := Some s |},
               {| lib := l3;
                  log := log w ++ [CallConnect e; CallExecutionOptions c0 false;
                                   CallOrmSession c] |})
          end
      end
  end.
Proof. apply get_session_equation. Qed.

Lemma get_session_calls_and_result_witness :
  DataSource.get_session Mem.toolkit Run.ds1 Run.w_open
  = (Ok {| _data_source := Some Run.ds1;
           _connection := Some 2%nat;
           _session := Some 2%nat |},
     {| lib := {| Mem.next_id := 3; Mem.closed_connections := []; Mem.disposals := 0 |};
        log := log Run.w_open ++ [CallConnect 0%nat; CallExecutionOptions 2%nat false;
                                  CallOrmSession 2%nat] |}).
Proof.
  exact (get_session_calls_and_result Mem.toolkit Run.ds1 0%nat Run.w_open eq_refl).
Defined.


(** X16: [init] either raises exactly what pool construction raised, or
    returns a data source on which [is_initialized] is true and whose pool
    is bound, so that the guard of [get_session], [release_session] and
    [close] passes. *)
Theorem init_raises_or_initializes {L : Type} (tk : Toolkit L)
  (self : DataSource_obj) (args : list value) (kwargs : pydict) (w : World L) :
  let kwargs1 := dict_store kwargs (VStr "connect_args")
                   (VDict [(VStr "connect_timeout", VInt 10)]) in
  match fst (DataSource.init tk self args kwargs w) with
  | Ok ds =>
      DataSource.is_initialized ds = true /\
      _pool ds <> None /\
      forall w' : World L, DataSource.check_initialization ds w' = (Ok tt, w')
  | Exc x => fst (create_engine tk args kwargs1 (lib w)) = Exc x
  end.
Proof.
  cbv zeta. unfold DataSource.init, bind, lift, call, attr, ret. cbn.
  destruct (create_engine tk args _ (lib w)) as [[ engine | x ] l1]; cbn.
  - split; [ reflexivity | ]. split; [ discriminate | reflexivity ].
  - reflexivity.
Qed.

(** X17: a method wrapped by [requires_init] runs exactly when the first
    positional argument is an initialized [DataSource], and then the
    wrapper is the method applied to it and to the remaining arguments; on
    an uninitialized one the wrapper raises the guard's [DataSourceError],
    and without arguments or on a receiver of another class it raises
    [TypeError].  [check_needed] does the same with an available
    [SqlSession].  Where the method is not run, nothing is asked of the
    engine and nothing is printed. *)
Theorem decorators_guard_the_method {L A : Type} (tk : Toolkit L)
  (on_source : DataSource_obj -> list pyobject -> M L A)
  (on_session : SqlSession_obj -> list pyobject -> M L A)
  (args : list pyobject) (w : World L) :
  DataSource.requires_init on_source args w =
    match args with
    | PDataSource self :: rest =>
        if DataSource.is_initialized self
        then on_source self rest w
        else (Exc (DataSourceError1 DataSource.not_initialized_message), w)
    | _ =>
        (Exc (TypeError "this decorator should be applied to a instance method of DataSource class."), w)
    end /\
  SqlSession.check_needed tk on_session args w =
    match args with
    | PSqlSession self :: rest =>
        if SqlSession.is_available tk self w
        then on_session self rest w
        else (Exc (DataSourceError1 SqlSession.not_available_message), w)
    | _ =>
        (Exc (TypeError "this decorator should be applied to a instance method of SqlSession class."), w)
    end.
Proof.
  split.
  - destruct args as [ | [ ds | s | v ] rest ]; try reflexivity.
    unfold DataSource.requires_init, DataSource.check_initialization, bind.
    destruct (DataSource.is_initialized ds); reflexivity.
  - destruct args as [ | [ ds | s | v ] rest ]; try reflexivity.
    unfold SqlSession.check_needed, SqlSession.check_availability, bind.
    destruct (SqlSession.is_available tk s w); reflexivity.
Qed.

(** X18: every session that [get_session] returns is bound to the data
    source that made it, to a connection and to an ORM session, so leaving
    its scope reaches the engine.  [commit] on its ORM session comes first.
    [close] on the same ORM session follows when [commit] returned, or
    when it raised and [print(e)] returned; when [print(e)] raises, its
    exception leaves [__exit__] and nothing is closed. *)
Theorem session_from_get_session_is_bound {L : Type} (tk : Toolkit L)
  (con : Console L)
  (ds : DataSource_obj) (session : SqlSession_obj) (w w1 : World L) :
  DataSource.get_session tk ds w = (Ok session, w1) ->
  exists c s,
    session = {| _data_source := Some ds; _connection := Some c; _session := Some s |} /\
    forall (exc_type exc_val exc_tb : value) (w2 : World L),
      match session_commit tk s (lib w2) with
      | (Ok _, la) =>
          exists tail,
            log (snd (SqlSession.__exit__ tk con session exc_type exc_val exc_tb w2))
            = log w2 ++ CallSessionCommit s :: CallSessionClose s :: tail
      | (Exc e, la) =>
          match print_object con e la with
          | (Ok _, lb) =>
              exists tail,
                log (snd (SqlSession.__exit__ tk con session exc_type exc_val exc_tb w2))
                = log w2 ++ CallSessionCommit s :: PrintException e
                            :: CallSessionClose s :: tail
          | (Exc x, lb) =>
              SqlSession.__exit__ tk con session exc_type exc_val exc_tb w2
              = (Exc x, {| lib := lb;
                           log := log w2 ++ [CallSessionCommit s; PrintException e] |})
          end
      end.
Proof.
  intros Hget.
  destruct (_engine ds) as [ e | ] eqn:He.
  2:{ unfold DataSource.get_session, DataSource.requires_init,
        DataSource.check_initialization, DataSource.is_initialized, bind in Hget.
      rewrite He in Hget. discriminate Hget. }
  rewrite (get_session_equation tk ds e w He) in Hget.
  destruct (engine_connect tk e (lib w)) as [[ c0 | x ] l1]; [ | discriminate ].
  destruct (conn_execution_options tk c0 false l1) as [[ c | x ] l2]; [ | discriminate ].
  destruct (orm_session tk c l2) as [[ s | x ] l3]; [ | discriminate ].
  injection Hget as <- _. exists c, s. split; [ reflexivity | ].
  intros exc_type exc_val exc_tb w2.
  unfold SqlSession.__exit__, SqlSession.print_exception, SqlSession.commit,
    SqlSession.close, try_except, bind, attr, ret, raise, call.
  cbv beta iota zeta delta [_session _connection].
  destruct (session_commit tk s (lib w2)) as [[ [] | x ] la];
    cbv beta iota zeta delta [lib log].
  - destruct (session_close tk s la) as [[ [] | x ] lb];
      cbv beta iota zeta delta [lib log].
    + destruct (conn_close tk c lb) as [[ [] | x ] lc];
        exists [CallConnClose c]; cbn; rewrite <- !app_assoc; reflexivity.
    + exists []. cbn. rewrite <- !app_assoc. reflexivity.
  - destruct (print_object con x la) as [[ [] | y ] lb];
      cbv beta iota zeta delta [lib log].
    + destruct (session_close tk s lb) as [[ [] | y ] lc];
        cbv beta iota zeta delta [lib log].
      * destruct (conn_close tk c lc) as [[ [] | y ] ld];
          exists [CallConnClose c]; cbn; rewrite <- !app_assoc; reflexivity.
      * exists []. cbn. rewrite <- !app_assoc. reflexivity.
    + rewrite <- app_assoc. reflexivity.
Qed.

(** The session of the in-memory run, left while it is open. *)
Lemma session_from_get_session_is_bound_witness :
  exists tail,
    log (snd (SqlSession.__exit__ Mem.toolkit Outage.stdout_open Run.s1
                VNone VNone VNone Run.w_open))
    = log Run.w_open ++ CallSessionCommit 1%nat :: CallSessionClose 1%nat :: tail.
Proof.
  destruct (session_from_get_session_is_bound Mem.toolkit Outage.stdout_open
              Run.ds1 Run.s1
              (Mem.after (DataSource.init Mem.toolkit DataSource.new
                            [VStr "test://mem"] []) Mem.world0)
              Run.w_open eq_refl) as (c & s & Hbound & Hexit).
  injection Hbound as <- <-.
  exact (Hexit VNone VNone VNone Run.w_open).
Defined.
